(** * ot-br-posix: the OpenThread controller of the border-router agent

    A shallow embedding of [src/agent/ncp_openthread.cpp]
    ([otbr::Ncp::ControllerOpenThread], [otPlatReset]) and the properties
    its specification states about it.

    The adapter is glue around the OpenThread library.  The library (and the
    agent's [ThreadHelper], which lives in another file of the repository) is
    an interface here: a type class of operations on a hidden stack state.
    The deferred tasks the agent posts are an interface as well: running one
    may change the hidden state and post timers, its own included.
    Adapter code is written in a small monad that threads the adapter's
    fields, the process-wide reset flag and the hidden state, collects the
    calls made to the outside (library calls, emitted events, fired timers)
    in order, and can stop in three ways besides returning: a failed
    [assert], a dereference of a pointer that was never set, or an exhausted
    iteration budget of the timer loop, which need not end. *)

From Stdlib Require Import ZArith List Bool String Lia.
From Stdlib Require Import Strings.Byte Sorting.Sorted Sorting.Permutation.
Import ListNotations.
Local Open Scope Z_scope.

(* ------------------------------------------------------------------ *)
(** ** Data of the OpenThread API and of the agent *)

(** [otError]: the adapter only ever compares a result with
    [OT_ERROR_NONE]; the enumeration is abbreviated to the first codes of
    [openthread/error.h]. *)
Inductive otError :=
| OT_ERROR_NONE
| OT_ERROR_FAILED
| OT_ERROR_DROP
| OT_ERROR_NO_BUFS
| OT_ERROR_INVALID_ARGS
| OT_ERROR_INVALID_STATE.

Definition otError_eqb (a b : otError) : bool :=
  match a, b with
  | OT_ERROR_NONE, OT_ERROR_NONE
  | OT_ERROR_FAILED, OT_ERROR_FAILED
  | OT_ERROR_DROP, OT_ERROR_DROP
  | OT_ERROR_NO_BUFS, OT_ERROR_NO_BUFS
  | OT_ERROR_INVALID_ARGS, OT_ERROR_INVALID_ARGS
  | OT_ERROR_INVALID_STATE, OT_ERROR_INVALID_STATE => true
  | _, _ => false
  end.

(** [otbrError] of [common/types.hpp]: the two values this file names and
    the other error kinds of the agent. *)
Inductive otbrError :=
| OTBR_ERROR_NONE
| OTBR_ERROR_ERRNO
| OTBR_ERROR_DBUS
| OTBR_ERROR_MDNS
| OTBR_ERROR_OPENTHREAD.

(** [otDeviceRole] of [openthread/thread.h]. *)
Inductive otDeviceRole :=
| OT_DEVICE_ROLE_DISABLED
| OT_DEVICE_ROLE_DETACHED
| OT_DEVICE_ROLE_CHILD
| OT_DEVICE_ROLE_ROUTER
| OT_DEVICE_ROLE_LEADER.

(** An [otInstance *]: the handle [otSysInit] returns. *)
Definition otInstance := Z.

(** [otChangedFlags] is a [uint32_t] bit mask. *)
Definition otChangedFlags := Z.

(** [std::chrono::steady_clock::time_point], in ticks of the clock since
    its epoch, and the count of a [std::chrono::microseconds]: 64-bit
    signed counts.  Comparisons and divisions of counts are exact; the
    count made from the two fields of a [timeval] and the difference of
    two time points are computed in 64 bits and wrap around ([int64_wrap]
    below). *)
Definition time_point := Z.
Definition microseconds := Z.

Record timeval := { tv_sec : Z; tv_usec : Z }.

(** [otSysMainloopContext]: the descriptor sets are handed through to the
    library untouched; the adapter reads and writes [mTimeout] only. *)
Record otSysMainloopContext := {
  mMaxFd : Z;
  mReadFdSet : list Z;
  mWriteFdSet : list Z;
  mErrorFdSet : list Z;
  mTimeout : timeval
}.

(** [otPlatformConfig], the fields the constructor fills in (the rest is
    zeroed by its [memset]). *)
Record otPlatformConfig := {
  mInterfaceName : string;
  mRadioFile : string;
  mRadioConfig : string;
  mResetRadio : bool;
  mSpeedUpFactor : Z
}.

(** [otbr::agent::ThreadHelper], built from the instance it serves. *)
Record ThreadHelper := { helper_instance : otInstance }.

(** What [EventEmitter::Emit] carries after the event code: a network name,
    an extended PAN ID or PSKc (bytes), the attachment state, or the
    protocol version. *)
Inductive EventArg :=
| EmitString (s : string)
| EmitBytes (b : list byte)
| EmitBool (b : bool)
| EmitU16 (v : Z).

(** A deferred task, [std::function<void(void)>]: code of the agent,
    named here by a number.  What running it does is the agent's affair
    ([DeferredTasks] below). *)
Definition Task := nat.

(** [mTimers], a [std::multimap<time_point, function>]: entries in
    ascending key order, equal keys in insertion order. *)
Definition TimerEntry := (time_point * Task)%type.
Definition due (e : TimerEntry) : time_point := fst e.

(** The calls the adapter makes to the outside, as they happen. *)
Inductive Event :=
| Ev_otSysInit (cfg : otPlatformConfig) (inst : otInstance)
| Ev_otCliUartInit (inst : otInstance)
| Ev_otSetStateChangedCallback (inst : otInstance) (result : otError)
| Ev_LogOpenThreadResult (what : string) (result : otError)
| Ev_ThreadHelper_new (inst : otInstance)
| Ev_otInstanceFinalize (inst : otInstance)
| Ev_otSysDeinit
| Ev_Emit (aEvent : Z) (arg : EventArg)
| Ev_StateChangedCallback (helper : ThreadHelper) (aFlags : otChangedFlags)
| Ev_otSysMainloopUpdate (inst : otInstance) (aMainloop : otSysMainloopContext)
| Ev_otTaskletsProcess (inst : otInstance)
| Ev_otSysMainloopProcess (inst : otInstance) (aMainloop : otSysMainloopContext)
| Ev_TimerFired (e : TimerEntry)
| Ev_TimerErased (e : TimerEntry)
| Ev_TryResumeNetwork (helper : ThreadHelper) (result : otError).

(* ------------------------------------------------------------------ *)
(** ** Constants declared outside this file *)

(** The event codes of [agent/ncp.hpp].  [RequestEvent] switches over
    them, so the compiler has checked that they are distinct. *)
Class EventCodes := {
  kEventExtPanId : Z;
  kEventNetworkName : Z;
  kEventPSKc : Z;
  kEventThreadState : Z;
  kEventThreadVersion : Z;
  event_codes_distinct :
    NoDup [kEventExtPanId; kEventThreadState; kEventNetworkName;
           kEventPSKc; kEventThreadVersion]
}.

(** The [OT_CHANGED_*] masks of [openthread/instance.h] that
    [HandleStateChanged] tests. *)
Class ChangedFlags := {
  OT_CHANGED_THREAD_ROLE : otChangedFlags;
  OT_CHANGED_THREAD_NETWORK_NAME : otChangedFlags;
  OT_CHANGED_THREAD_EXT_PANID : otChangedFlags
}.

(** The resolution of [steady_clock]: how many of its ticks make one
    microsecond (1000 where the clock counts nanoseconds). *)
Class SteadyClock := {
  ticks_per_us : Z;
  ticks_per_us_pos : 0 < ticks_per_us
}.

(** The OpenThread library, its POSIX platform and the agent's
    [ThreadHelper], over their hidden state [Lib].  Queries read the state;
    the other calls may change it. *)
Class OpenThread (Lib : Type) := {
  otSysInit : otPlatformConfig -> Lib -> otInstance * Lib;
  otSysDeinit : Lib -> Lib;
  otInstanceFinalize : otInstance -> Lib -> Lib;
  otCliUartInit : otInstance -> Lib -> Lib;
  otSetStateChangedCallback : otInstance -> Lib -> otError * Lib;
  otTaskletsArePending : otInstance -> Lib -> bool;
  otTaskletsProcess : otInstance -> Lib -> Lib;
  otSysMainloopUpdate :
    otInstance -> otSysMainloopContext -> Lib -> otSysMainloopContext * Lib;
  otSysMainloopProcess : otInstance -> otSysMainloopContext -> Lib -> Lib;
  otThreadGetNetworkName : otInstance -> Lib -> string;
  otThreadGetExtendedPanId : otInstance -> Lib -> list byte;
  otThreadGetDeviceRole : otInstance -> Lib -> otDeviceRole;
  otThreadGetPskc : otInstance -> Lib -> list byte;
  otThreadGetVersion : Lib -> Z;
  StateChangedCallback : ThreadHelper -> otChangedFlags -> Lib -> Lib;
  TryResumeNetwork : ThreadHelper -> Lib -> otError * Lib
}.

(** The deferred tasks the agent posts, over the same hidden state.  A
    task is opaque code: it may change the hidden state, and what it can do
    to the timer queue, which is private to the controller, is call
    [PostTimerTask].  Running a task in a state yields the timers it posts,
    in the order it posts them, and the state it leaves.  A task may post
    any task, itself included, and need not do the same on every run. *)
Class DeferredTasks (Lib : Type) := {
  invoke : Task -> Lib -> list TimerEntry * Lib
}.

(* ------------------------------------------------------------------ *)
(** ** The adapter's state *)

(** The fields of [ControllerOpenThread].  [mInstance] is not initialised
    by the constructor and [mThreadHelper] starts as a null [unique_ptr]:
    both are [None] until [Init] sets them. *)
Record ControllerOpenThread := {
  mConfig : otPlatformConfig;
  mInstance : option otInstance;
  mThreadHelper : option ThreadHelper;
  mTimers : list TimerEntry;
  mTriedAttach : bool
}.

(** The adapter, the file-level [static bool sReset] and the stack. *)
Record World (Lib : Type) := {
  self : ControllerOpenThread;
  sReset : bool;
  lib : Lib
}.
Arguments self {Lib} _.
Arguments sReset {Lib} _.
Arguments lib {Lib} _.
Arguments Build_World {Lib} _ _ _.

(** How a run of adapter code ends. *)
Inductive Result (A : Type) :=
| Done (a : A)          (* returned [a] *)
| AssertFailed          (* [assert(false)] was reached *)
| Undefined             (* a pointer that was never set was used *)
| OutOfFuel.            (* the timer loop used up its iteration budget *)
Arguments Done {A} _.
Arguments AssertFailed {A}.
Arguments Undefined {A}.
Arguments OutOfFuel {A}.

(** A run: how it ended, the state it left, and the outside calls it made. *)
Record Run (Lib A : Type) := {
  result : Result A;
  final : World Lib;
  events : list Event
}.
Arguments result {Lib A} _.
Arguments final {Lib A} _.
Arguments events {Lib A} _.
Arguments Build_Run {Lib A} _ _ _.

Definition M (Lib A : Type) : Type := World Lib -> Run Lib A.

Definition ret {Lib A} (a : A) : M Lib A :=
  fun w => Build_Run (Done a) w [].

Definition bind {Lib A B} (m : M Lib A) (k : A -> M Lib B) : M Lib B :=
  fun w =>
    match m w with
    | Build_Run (Done a) w1 ev1 =>
        match k a w1 with
        | Build_Run res w2 ev2 => Build_Run res w2 (ev1 ++ ev2)
        end
    | Build_Run AssertFailed w1 ev1 => Build_Run AssertFailed w1 ev1
    | Build_Run Undefined w1 ev1 => Build_Run Undefined w1 ev1
    | Build_Run OutOfFuel w1 ev1 => Build_Run OutOfFuel w1 ev1
    end.

Declare Scope ncp_scope.
Delimit Scope ncp_scope with ncp.
Notation "x <- c1 ;; c2" := (bind c1 (fun x => c2))
  (at level 61, c1 at next level, right associativity) : ncp_scope.
Notation "c1 ;; c2" := (bind c1 (fun _ => c2))
  (at level 61, right associativity) : ncp_scope.
Local Open Scope ncp_scope.

Definition stop {Lib A} (r : Result A) : M Lib A :=
  fun w => Build_Run r w [].

Definition log {Lib} (e : Event) : M Lib unit :=
  fun w => Build_Run (Done tt) w [e].

Definition gets {Lib A} (f : World Lib -> A) : M Lib A :=
  fun w => Build_Run (Done (f w)) w [].

Definition modify {Lib} (f : World Lib -> World Lib) : M Lib unit :=
  fun w => Build_Run (Done tt) (f w) [].

(** A library call that changes the stack and returns a value. *)
Definition call {Lib A} (f : Lib -> A * Lib) : M Lib A :=
  fun w =>
    let r := f (lib w) in
    Build_Run (Done (fst r)) (Build_World (self w) (sReset w) (snd r)) [].

(** A library call that changes the stack and returns nothing. *)
Definition call_ {Lib} (f : Lib -> Lib) : M Lib unit :=
  fun w => Build_Run (Done tt) (Build_World (self w) (sReset w) (f (lib w))) [].

(** A library query. *)
Definition query {Lib A} (f : Lib -> A) : M Lib A :=
  fun w => Build_Run (Done (f (lib w))) w [].

Definition with_self {Lib} (f : ControllerOpenThread -> ControllerOpenThread)
  (w : World Lib) : World Lib :=
  Build_World (f (self w)) (sReset w) (lib w).

Definition set_mInstance (i : option otInstance) (c : ControllerOpenThread) :=
  {| mConfig := mConfig c; mInstance := i; mThreadHelper := mThreadHelper c;
     mTimers := mTimers c; mTriedAttach := mTriedAttach c |}.

Definition set_mThreadHelper (h : option ThreadHelper) (c : ControllerOpenThread) :=
  {| mConfig := mConfig c; mInstance := mInstance c; mThreadHelper := h;
     mTimers := mTimers c; mTriedAttach := mTriedAttach c |}.

Definition set_mTimers (q : list TimerEntry) (c : ControllerOpenThread) :=
  {| mConfig := mConfig c; mInstance := mInstance c;
     mThreadHelper := mThreadHelper c;
     mTimers := q; mTriedAttach := mTriedAttach c |}.

Definition set_mTriedAttach (b : bool) (c : ControllerOpenThread) :=
  {| mConfig := mConfig c; mInstance := mInstance c;
     mThreadHelper := mThreadHelper c;
     mTimers := mTimers c; mTriedAttach := b |}.

Definition set_sReset {Lib} (b : bool) (w : World Lib) : World Lib :=
  Build_World (self w) b (lib w).

(** Reading [mInstance] to pass it on, and [mThreadHelper->]. *)
Definition get_mInstance {Lib} : M Lib otInstance :=
  fun w =>
    match mInstance (self w) with
    | Some i => Build_Run (Done i) w []
    | None => Build_Run Undefined w []
    end.

Definition get_mThreadHelper {Lib} : M Lib ThreadHelper :=
  fun w =>
    match mThreadHelper (self w) with
    | Some h => Build_Run (Done h) w []
    | None => Build_Run Undefined w []
    end.

Fixpoint for_each {Lib A} (f : A -> M Lib unit) (l : list A) : M Lib unit :=
  match l with
  | [] => ret tt
  | a :: l' => f a ;; for_each f l'
  end.

(* ------------------------------------------------------------------ *)
(** ** Helpers of the source file *)

(** [aFlags & mask], as a condition. *)
Definition flag_set (aFlags mask : otChangedFlags) : bool :=
  negb (Z.land aFlags mask =? 0).

Definition kUsPerSecond : Z := 1000000.

(** [ToTimeVal]: C++ division and remainder truncate toward zero. *)
Definition ToTimeVal (aTime : microseconds) : timeval :=
  {| tv_sec := Z.quot aTime kUsPerSecond;
     tv_usec := Z.rem aTime kUsPerSecond |}.

(** The range of a 64-bit signed count, and the result of an arithmetic
    operation on such counts: the exact result modulo [2^64], taken in the
    range (two's complement wrap-around, as the operation is observed to
    behave when it overflows). *)
Definition int64_min : Z := -9223372036854775808.
Definition int64_max : Z := 9223372036854775807.

Definition int64_wrap (z : Z) : Z :=
  (z + 9223372036854775808) mod 18446744073709551616 - 9223372036854775808.

(** [microseconds(tv.tv_usec) + seconds(tv.tv_sec)]: the seconds are
    converted to microseconds, a multiplication of the count by one
    million, and the two counts are added. *)
Definition timeval_us (tv : timeval) : microseconds :=
  int64_wrap (tv_usec tv + int64_wrap (tv_sec tv * 1000000)).

(** [duration_cast<microseconds>] of a [steady_clock] duration: truncation
    toward zero. *)
Definition duration_cast_us `{SteadyClock} (d : Z) : microseconds :=
  Z.quot d ticks_per_us.

Definition set_mTimeout (tv : timeval) (m : otSysMainloopContext) :=
  {| mMaxFd := mMaxFd m; mReadFdSet := mReadFdSet m;
     mWriteFdSet := mWriteFdSet m; mErrorFdSet := mErrorFdSet m;
     mTimeout := tv |}.

(** [std::multimap::insert]: after every entry whose key is not greater. *)
Fixpoint multimap_insert (e : TimerEntry) (q : list TimerEntry) : list TimerEntry :=
  match q with
  | [] => [e]
  | h :: q' => if due e <? due h then e :: q else h :: multimap_insert e q'
  end.

(* ------------------------------------------------------------------ *)
(** ** A stand-in stack for concrete runs

    A stack whose answers are fixed by a record: it hands out instance
    handles in sequence and otherwise never changes. *)

Record SimStack := {
  sim_next_instance : otInstance;
  sim_register : otError;
  sim_pending : bool;
  sim_resume : otError;
  sim_role : otDeviceRole;
  sim_name : string;
  sim_xpanid : list byte;
  sim_pskc : list byte;
  sim_version : Z
}.

Definition sim_bump (l : SimStack) : SimStack :=
  {| sim_next_instance := sim_next_instance l + 1;
     sim_register := sim_register l; sim_pending := sim_pending l;
     sim_resume := sim_resume l; sim_role := sim_role l;
     sim_name := sim_name l; sim_xpanid := sim_xpanid l;
     sim_pskc := sim_pskc l; sim_version := sim_version l |}.

Definition SimOpenThread : OpenThread SimStack := {|
  otSysInit := fun _ l => (sim_next_instance l, sim_bump l);
  otSysDeinit := fun l => l;
  otInstanceFinalize := fun _ l => l;
  otCliUartInit := fun _ l => l;
  otSetStateChangedCallback := fun _ l => (sim_register l, l);
  otTaskletsArePending := fun _ l => sim_pending l;
  otTaskletsProcess := fun _ l => l;
  otSysMainloopUpdate := fun _ m l => (m, l);
  otSysMainloopProcess := fun _ _ l => l;
  otThreadGetNetworkName := fun _ l => sim_name l;
  otThreadGetExtendedPanId := fun _ l => sim_xpanid l;
  otThreadGetDeviceRole := fun _ l => sim_role l;
  otThreadGetPskc := fun _ l => sim_pskc l;
  otThreadGetVersion := fun l => sim_version l;
  StateChangedCallback := fun _ _ l => l;
  TryResumeNetwork := fun _ l => (sim_resume l, l)
|}.

(** Stand-in tasks.  Task 1 posts task 3 for a later time; task 8 posts
    task 2 for the time 3000; task 9 posts itself again for the time 5000;
    every other task posts nothing.  None of them touches the stack. *)
Definition SimTasks : DeferredTasks SimStack := {|
  invoke := fun t l =>
    match t with
    | 1%nat => ([(20000, 3%nat)], l)
    | 8%nat => ([(3000, 2%nat)], l)
    | 9%nat => ([(5000, 9%nat)], l)
    | _ => ([], l)
    end
|}.

(** Sample values of the constants: the event codes in the order of the
    enumeration, the change masks as single bits, a nanosecond clock. *)
Definition sim_event_codes_distinct : NoDup [0; 3; 1; 2; 4] :=
  ltac:(repeat constructor; cbn; intuition discriminate).

Definition SimEventCodes : EventCodes := {|
  kEventExtPanId := 0;
  kEventNetworkName := 1;
  kEventPSKc := 2;
  kEventThreadState := 3;
  kEventThreadVersion := 4;
  event_codes_distinct := sim_event_codes_distinct
|}.

Definition SimChangedFlags : ChangedFlags := {|
  OT_CHANGED_THREAD_ROLE := 4;
  OT_CHANGED_THREAD_NETWORK_NAME := 65536;
  OT_CHANGED_THREAD_EXT_PANID := 131072
|}.

Definition SimSteadyClock : SteadyClock := {|
  ticks_per_us := 1000;
  ticks_per_us_pos := eq_refl
|}.

Definition sim_stack : SimStack :=
  {| sim_next_instance := 1;
     sim_register := OT_ERROR_NONE;
     sim_pending := false;
     sim_resume := OT_ERROR_NONE;
     sim_role := OT_DEVICE_ROLE_ROUTER;
     sim_name := "OpenThread";
     sim_xpanid := [xde; xad; x00; xbe; xef; x00; xca; xfe];
     sim_pskc := [x00; x11; x22; x33; x44; x55; x66; x77;
                  x88; x99; xaa; xbb; xcc; xdd; xee; xff];
     sim_version := 2 |}.

(* ------------------------------------------------------------------ *)
(** ** The controller *)

Section Controller.

Context {Lib : Type} {OT : OpenThread Lib} {DT : DeferredTasks Lib}.
Context {EC : EventCodes} {CF : ChangedFlags} {SC : SteadyClock}.

(** [ControllerOpenThread::ControllerOpenThread]. *)
Definition ControllerOpenThread_new
  (aInterfaceName aRadioFile aRadioConfig : string) : ControllerOpenThread :=
  {| mConfig := {| mInterfaceName := aInterfaceName;
                   mRadioFile := aRadioFile;
                   mRadioConfig := aRadioConfig;
                   mResetRadio := true;
                   mSpeedUpFactor := 1 |};
     mInstance := None;
     mThreadHelper := None;
     mTimers := [];
     mTriedAttach := false |}.

(** The process right after construction: [sReset] is a zero-initialised
    static. *)
Definition boot (aInterfaceName aRadioFile aRadioConfig : string) (l : Lib)
  : World Lib :=
  Build_World (ControllerOpenThread_new aInterfaceName aRadioFile aRadioConfig)
              false l.

(** [ControllerOpenThread::~ControllerOpenThread]. *)
Definition ControllerOpenThread_delete : M Lib unit :=
  inst <- get_mInstance ;;
  log (Ev_otInstanceFinalize inst) ;;
  call_ (otInstanceFinalize inst) ;;
  log Ev_otSysDeinit ;;
  call_ otSysDeinit.

(** [ControllerOpenThread::Init]. *)
Definition Init : M Lib otbrError :=
  cfg <- gets (fun w => mConfig (self w)) ;;
  inst <- call (otSysInit cfg) ;;
  log (Ev_otSysInit cfg inst) ;;
  modify (with_self (set_mInstance (Some inst))) ;;
  log (Ev_otCliUartInit inst) ;;
  call_ (otCliUartInit inst) ;;
  result <- call (otSetStateChangedCallback inst) ;;
  log (Ev_otSetStateChangedCallback inst result) ;;
  log (Ev_LogOpenThreadResult "Set state callback" result) ;;
  if otError_eqb result OT_ERROR_NONE then
    log (Ev_ThreadHelper_new inst) ;;
    modify (with_self (set_mThreadHelper (Some {| helper_instance := inst |}))) ;;
    ret OTBR_ERROR_NONE
  else
    ret OTBR_ERROR_OPENTHREAD.

(** [ControllerOpenThread::HandleStateChanged]. *)
Definition HandleStateChanged (aFlags : otChangedFlags) : M Lib unit :=
  (if flag_set aFlags OT_CHANGED_THREAD_NETWORK_NAME then
     inst <- get_mInstance ;;
     name <- query (otThreadGetNetworkName inst) ;;
     log (Ev_Emit kEventNetworkName (EmitString name))
   else ret tt) ;;
  (if flag_set aFlags OT_CHANGED_THREAD_EXT_PANID then
     inst <- get_mInstance ;;
     xpanid <- query (otThreadGetExtendedPanId inst) ;;
     log (Ev_Emit kEventExtPanId (EmitBytes xpanid))
   else ret tt) ;;
  (if flag_set aFlags OT_CHANGED_THREAD_ROLE then
     inst <- get_mInstance ;;
     role <- query (otThreadGetDeviceRole inst) ;;
     let attached :=
       match role with
       | OT_DEVICE_ROLE_CHILD
       | OT_DEVICE_ROLE_ROUTER
       | OT_DEVICE_ROLE_LEADER => true
       | _ => false
       end in
     log (Ev_Emit kEventThreadState (EmitBool attached))
   else ret tt) ;;
  helper <- get_mThreadHelper ;;
  log (Ev_StateChangedCallback helper aFlags) ;;
  call_ (StateChangedCallback helper aFlags).

(** The timeout [UpdateFdSet] settles on, from the timeout the context
    carries, [otTaskletsArePending], the timer queue and the clock. *)
Definition wake_timeout (timeout : microseconds) (pending : bool)
  (timers : list TimerEntry) (now : time_point) : microseconds :=
  if pending then 0
  else match timers with
       | [] => timeout
       | first :: _ =>
           if due first <? now then 0
           else Z.min timeout
                  (duration_cast_us (int64_wrap (due first - now)))
       end.

(** [ControllerOpenThread::UpdateFdSet]; [now] is what
    [steady_clock::now()] returns, the result is [aMainloop] as the call
    leaves it. *)
Definition UpdateFdSet (now : time_point) (aMainloop : otSysMainloopContext)
  : M Lib otSysMainloopContext :=
  let timeout := timeval_us (mTimeout aMainloop) in
  inst <- get_mInstance ;;
  pending <- query (otTaskletsArePending inst) ;;
  timers <- gets (fun w => mTimers (self w)) ;;
  let timeout := wake_timeout timeout pending timers now in
  let aMainloop := set_mTimeout (ToTimeVal timeout) aMainloop in
  log (Ev_otSysMainloopUpdate inst aMainloop) ;;
  call (otSysMainloopUpdate inst aMainloop).

(** [ControllerOpenThread::PostTimerTask]. *)
Definition PostTimerTask (aTimePoint : time_point) (aTask : Task) : M Lib unit :=
  modify (with_self (fun c =>
    set_mTimers (multimap_insert (aTimePoint, aTask) (mTimers c)) c)).

(** [mTimers.begin()->second()]: the task runs, and each timer it posts
    goes through [PostTimerTask]. *)
Definition run_task (e : TimerEntry) : M Lib unit :=
  log (Ev_TimerFired e) ;;
  posts <- call (invoke (snd e)) ;;
  for_each (fun p => PostTimerTask (fst p) (snd p)) posts.

(** [mTimers.erase(mTimers.begin())]. *)
Definition erase_begin : M Lib unit :=
  fun w =>
    match mTimers (self w) with
    | [] => Build_Run Undefined w []
    | e :: q => Build_Run (Done tt) (with_self (set_mTimers q) w) [Ev_TimerErased e]
    end.

(** The [while] loop of [Process]; [fuel] bounds its iterations. *)
Fixpoint fire_timers (fuel : nat) (now : time_point) : M Lib unit :=
  timers <- gets (fun w => mTimers (self w)) ;;
  match timers with
  | [] => ret tt
  | first :: _ =>
      if due first <=? now then
        match fuel with
        | O => stop OutOfFuel
        | S fuel' => run_task first ;; erase_begin ;; fire_timers fuel' now
        end
      else ret tt
  end.

(** [ControllerOpenThread::Process]. *)
Definition Process (fuel : nat) (now : time_point)
  (aMainloop : otSysMainloopContext) : M Lib unit :=
  inst <- get_mInstance ;;
  log (Ev_otTaskletsProcess inst) ;;
  call_ (otTaskletsProcess inst) ;;
  log (Ev_otSysMainloopProcess inst aMainloop) ;;
  call_ (otSysMainloopProcess inst aMainloop) ;;
  fire_timers fuel now ;;
  tried <- gets (fun w => mTriedAttach (self w)) ;;
  if negb tried then
    helper <- get_mThreadHelper ;;
    r <- call (TryResumeNetwork helper) ;;
    log (Ev_TryResumeNetwork helper r) ;;
    if otError_eqb r OT_ERROR_NONE then
      modify (with_self (set_mTriedAttach true))
    else ret tt
  else ret tt.

(** [ControllerOpenThread::Reset]. *)
Definition Reset : M Lib unit :=
  inst <- get_mInstance ;;
  log (Ev_otInstanceFinalize inst) ;;
  call_ (otInstanceFinalize inst) ;;
  log Ev_otSysDeinit ;;
  call_ otSysDeinit ;;
  _ <- Init ;;
  modify (set_sReset false).

(** [ControllerOpenThread::IsResetRequested]. *)
Definition IsResetRequested : M Lib bool :=
  gets sReset.

(** [otPlatReset]. *)
Definition otPlatReset (aInstance : otInstance) : M Lib unit :=
  modify (set_sReset true).

(** [ControllerOpenThread::RequestEvent]; the [switch] takes the first
    label equal to [aEvent]. *)
Definition RequestEvent (aEvent : Z) : M Lib otbrError :=
  let ret_ := OTBR_ERROR_NONE in
  (if aEvent =? kEventExtPanId then
     inst <- get_mInstance ;;
     xpanid <- query (otThreadGetExtendedPanId inst) ;;
     log (Ev_Emit kEventExtPanId (EmitBytes xpanid))
   else if aEvent =? kEventThreadState then
     inst <- get_mInstance ;;
     role <- query (otThreadGetDeviceRole inst) ;;
     let attached :=
       match role with
       | OT_DEVICE_ROLE_CHILD
       | OT_DEVICE_ROLE_ROUTER
       | OT_DEVICE_ROLE_LEADER => true
       | _ => false
       end in
     log (Ev_Emit kEventThreadState (EmitBool attached))
   else if aEvent =? kEventNetworkName then
     inst <- get_mInstance ;;
     name <- query (otThreadGetNetworkName inst) ;;
     log (Ev_Emit kEventNetworkName (EmitString name))
   else if aEvent =? kEventPSKc then
     inst <- get_mInstance ;;
     pskc <- query (otThreadGetPskc inst) ;;
     log (Ev_Emit kEventPSKc (EmitBytes pskc))
   else if aEvent =? kEventThreadVersion then
     version <- query otThreadGetVersion ;;
     log (Ev_Emit kEventThreadVersion (EmitU16 version))
   else
     stop AssertFailed) ;;
  ret ret_.

(** The operations of the adapter, as the agent and the stack invoke
    them, and runs of several in a row: a run goes on while the operations
    return. *)
Inductive Op :=
| OpInit
| OpHandleStateChanged (aFlags : otChangedFlags)
| OpUpdateFdSet (now : time_point) (aMainloop : otSysMainloopContext)
| OpProcess (fuel : nat) (now : time_point) (aMainloop : otSysMainloopContext)
| OpReset
| OpRequestEvent (aEvent : Z)
| OpPostTimerTask (aTimePoint : time_point) (aTask : Task)
| OpPlatReset (aInstance : otInstance).

Definition run_op (o : Op) : M Lib unit :=
  match o with
  | OpInit => _ <- Init ;; ret tt
  | OpHandleStateChanged aFlags => HandleStateChanged aFlags
  | OpUpdateFdSet now aMainloop => _ <- UpdateFdSet now aMainloop ;; ret tt
  | OpProcess fuel now aMainloop => Process fuel now aMainloop
  | OpReset => Reset
  | OpRequestEvent aEvent => _ <- RequestEvent aEvent ;; ret tt
  | OpPostTimerTask aTimePoint aTask => PostTimerTask aTimePoint aTask
  | OpPlatReset aInstance => otPlatReset aInstance
  end.

Definition run_ops (ops : list Op) : M Lib unit :=
  for_each run_op ops.

End Controller.

(* ------------------------------------------------------------------ *)
(** ** Vocabulary of the specification *)

(** The registrations of the state-change callback among the calls made. *)
Definition registrations (tr : list Event) : list (otInstance * otError) :=
  flat_map (fun e => match e with
                     | Ev_otSetStateChangedCallback i r => [(i, r)]
                     | _ => []
                     end) tr.

(** The roles that count as attached: child, router and leader. *)
Definition role_attached (r : otDeviceRole) : Prop :=
  r = OT_DEVICE_ROLE_CHILD \/ r = OT_DEVICE_ROLE_ROUTER \/ r = OT_DEVICE_ROLE_LEADER.

(** The five event codes [RequestEvent] serves. *)
Definition requestable_events `{EventCodes} : list Z :=
  [kEventExtPanId; kEventThreadState; kEventNetworkName; kEventPSKc;
   kEventThreadVersion].

(** The controller has been initialised: both pointers are set. *)
Definition initialized {Lib} (w : World Lib) (inst : otInstance)
  (helper : ThreadHelper) : Prop :=
  mInstance (self w) = Some inst /\ mThreadHelper (self w) = Some helper.

(** The queue is in ascending order of due time, as a multimap keeps it. *)
Definition timers_sorted (q : list TimerEntry) : Prop :=
  StronglySorted (fun a b => due a <= due b) q.

(** Calls of the resume action, and runs of calls without any. *)
Definition is_resume (e : Event) : bool :=
  match e with Ev_TryResumeNetwork _ _ => true | _ => false end.

Definition resume_free (tr : list Event) : Prop :=
  Forall (fun e => is_resume e = false) tr.

(** No call of the resume action follows one that returned
    [OT_ERROR_NONE]. *)
Fixpoint one_time (tr : list Event) : Prop :=
  match tr with
  | [] => True
  | Ev_TryResumeNetwork _ OT_ERROR_NONE :: tl => resume_free tl
  | _ :: tl => one_time tl
  end.

(** The events of the timer loop. *)
Definition is_timer_event (e : Event) : bool :=
  match e with Ev_TimerFired _ | Ev_TimerErased _ => true | _ => false end.

Definition timer_events (tr : list Event) : list Event :=
  filter is_timer_event tr.

(** Entries due at or before [now], and entries due after it. *)
Definition due_entries (now : time_point) (q : list TimerEntry) :=
  filter (fun e => due e <=? now) q.

Definition later_entries (now : time_point) (q : list TimerEntry) :=
  filter (fun e => now <? due e) q.

(** Posting a list of timers, one call of [PostTimerTask] after another. *)
Definition post_all (ps q : list TimerEntry) : list TimerEntry :=
  fold_left (fun q p => multimap_insert p q) ps q.

(** The timers the tasks of [es] post when they run one after the other
    from the state [l], and the state the last of them leaves. *)
Fixpoint posted_by {Lib} `{DeferredTasks Lib} (es : list TimerEntry) (l : Lib)
  : list TimerEntry * Lib :=
  match es with
  | [] => ([], l)
  | e :: es' =>
      let r := invoke (snd e) l in
      let r' := posted_by es' (snd r) in
      (fst r ++ fst r', snd r')
  end.

(** The calls of the timer loop for the entries [es]: each is fired and
    then erased. *)
Definition fired_then_erased (es : list TimerEntry) : list Event :=
  flat_map (fun e => [Ev_TimerFired e; Ev_TimerErased e]) es.


(** The task [c] re-arms itself for a time that has come by [now]: in
    whatever state it runs, it posts itself for a time at or before
    [now]. *)
Definition reposts_itself {Lib} `{DeferredTasks Lib} (now : time_point) (c : Task)
  : Prop :=
  forall l : Lib, exists t, t <= now /\ In (t, c) (fst (invoke c l)).

(** The entries of the task [c] that are due at [now], and their number
    in a queue. *)
Definition due_entry_of (now : time_point) (c : Task) (e : TimerEntry) : bool :=
  Nat.eqb (snd e) c && (due e <=? now).

Definition due_entries_of (now : time_point) (c : Task) (q : list TimerEntry)
  : nat :=
  List.length (filter (due_entry_of now c) q).


(** The earliest due time in the queue, whatever its order. *)
Fixpoint earliest_due (q : list TimerEntry) : option time_point :=
  match q with
  | [] => None
  | e :: q' =>
      match earliest_due q' with
      | None => Some (due e)
      | Some d => Some (Z.min (due e) d)
      end
  end.

(** The next wake time in the words of the specification: the minimum of
    zero when internal work is pending, the delay until the earliest
    deferred timer, not below zero, and the requested timeout. *)
Definition next_wake_spec `{SteadyClock} (requested : microseconds)
  (pending : bool) (timers : list TimerEntry) (now : time_point) : microseconds :=
  fold_right Z.min requested
    ((if pending then [0] else []) ++
     match earliest_due timers with
     | Some d => [Z.max 0 (duration_cast_us (d - now))]
     | None => []
     end).

(** The duration a [timeval] stands for, in microseconds. *)
Definition timeval_count (tv : timeval) : Z :=
  tv_usec tv + tv_sec tv * 1000000.

(** A requested timeout that the code reads exactly: its fields are not
    negative and its length in microseconds is a 64-bit count. *)
Definition timeout_in_range (tv : timeval) : Prop :=
  0 <= tv_sec tv /\ 0 <= tv_usec tv /\ timeval_count tv <= int64_max.

(** Time points whose distance the code computes exactly: the reading of
    the clock is not negative (the steady clock counts from its epoch) and
    the due times are 64-bit counts. *)
Definition clock_in_range (now : time_point) (timers : list TimerEntry) : Prop :=
  0 <= now /\ Forall (fun e => due e <= int64_max) timers.

(** The claim about the next wake time: the timeout handed to the library
    is the minimum the specification names, and it is not above the
    requested one. *)
Definition wake_time_claim `{SteadyClock} (requested : timeval)
  (pending : bool) (timers : list TimerEntry) (now : time_point)
  (passed : timeval) : Prop :=
  timeval_count passed =
    next_wake_spec (timeval_count requested) pending timers now /\
  timeval_count passed <= timeval_count requested.

(** The claim about what [Reset] changes of the controller: the instance
    and nothing else; and what it does change: the instance and the
    helper. *)
Definition changes_instance_only (c c' : ControllerOpenThread) : Prop :=
  c' = set_mInstance (mInstance c') c.

Definition changes_instance_and_helper_only (c c' : ControllerOpenThread) : Prop :=
  c' = set_mThreadHelper (mThreadHelper c') (set_mInstance (mInstance c') c).

(** The stand-in process, constructed and then initialised. *)
Definition sim_boot : World SimStack :=
  boot "wpan0" "/dev/ttyUSB0" "" sim_stack.

Definition sim_world : World SimStack :=
  final (@Init SimStack SimOpenThread sim_boot).

(** Stand-in inputs: a context asking for ten seconds, a controller with
    one timer, and one with two timers of which the earlier posts a third
    when it runs. *)
Definition sim_mainloop : otSysMainloopContext :=
  {| mMaxFd := -1; mReadFdSet := []; mWriteFdSet := []; mErrorFdSet := [];
     mTimeout := {| tv_sec := 10; tv_usec := 0 |} |}.


Definition sim_world_timers : World SimStack :=
  final (@PostTimerTask SimStack 5000 1%nat
           (final (@PostTimerTask SimStack 9000 2%nat sim_world))).

(** A controller with two timers, the earlier of which is for the task
    that posts itself again for the same time; and one whose one timer is
    for the task that posts a timer due before its own. *)
Definition sim_world_reposting : World SimStack :=
  final (@PostTimerTask SimStack 5000 9%nat
           (final (@PostTimerTask SimStack 6000 2%nat sim_world))).

Definition sim_world_posting_earlier : World SimStack :=
  final (@PostTimerTask SimStack 5000 8%nat sim_world).


(** Contexts whose requested timeout is negative, and too long for a
    64-bit count of microseconds. *)
Definition sim_mainloop_negative : otSysMainloopContext :=
  set_mTimeout {| tv_sec := -1; tv_usec := 0 |} sim_mainloop.

Definition sim_mainloop_overlong : otSysMainloopContext :=
  set_mTimeout {| tv_sec := 9223372036855; tv_usec := 0 |} sim_mainloop.

(** The shape of the calls of one operation with respect to the resume
    action: at most one call of it, as the last call made; if that call
    returned [OT_ERROR_NONE], the tried-attach flag is set afterwards. *)
Definition resume_last {Lib} (r : Run Lib unit) : Prop :=
  exists p s,
    events r = p ++ s /\ resume_free p /\
    (s = [] \/
     exists h res, s = [Ev_TryResumeNetwork h res] /\
       (res = OT_ERROR_NONE -> mTriedAttach (self (final r)) = true)).

Definition op_invariant {Lib} (w : World Lib) (r : Run Lib unit) : Prop :=
  mConfig (self (final r)) = mConfig (self w) /\
  (mTriedAttach (self w) = true ->
   mTriedAttach (self (final r)) = true /\ resume_free (events r)) /\
  resume_last r /\
  (timers_sorted (mTimers (self w)) -> timers_sorted (mTimers (self (final r)))).

(** What a run of several operations preserves. *)
Definition run_invariant {Lib} (w : World Lib) (r : Run Lib unit) : Prop :=
  mConfig (self (final r)) = mConfig (self w) /\
  (mTriedAttach (self w) = true ->
   mTriedAttach (self (final r)) = true /\ resume_free (events r)) /\
  one_time (events r) /\
  (forall h, In (Ev_TryResumeNetwork h OT_ERROR_NONE) (events r) ->
             mTriedAttach (self (final r)) = true) /\
  (timers_sorted (mTimers (self w)) -> timers_sorted (mTimers (self (final r)))).

(** *** The platform logging hook *)

(** The levels of [common/logging.hpp], as [syslog] has them. *)
Inductive otbrLogLevel :=
| OTBR_LOG_EMERG
| OTBR_LOG_ALERT
| OTBR_LOG_CRIT
| OTBR_LOG_ERR
| OTBR_LOG_WARNING
| OTBR_LOG_NOTICE
| OTBR_LOG_INFO
| OTBR_LOG_DEBUG.

(** The [OT_LOG_LEVEL_*] constants of [openthread/platform/logging.h];
    [otPlatLog] switches over them, so they are distinct. *)
Class LogLevels := {
  OT_LOG_LEVEL_NONE : Z;
  OT_LOG_LEVEL_CRIT : Z;
  OT_LOG_LEVEL_WARN : Z;
  OT_LOG_LEVEL_NOTE : Z;
  OT_LOG_LEVEL_INFO : Z;
  OT_LOG_LEVEL_DEBG : Z;
  log_levels_distinct :
    NoDup [OT_LOG_LEVEL_NONE; OT_LOG_LEVEL_CRIT; OT_LOG_LEVEL_WARN;
           OT_LOG_LEVEL_NOTE; OT_LOG_LEVEL_INFO; OT_LOG_LEVEL_DEBG]
}.

(** The levels [otPlatLog] names. *)
Definition known_log_levels `{LogLevels} : list Z :=
  [OT_LOG_LEVEL_NONE; OT_LOG_LEVEL_CRIT; OT_LOG_LEVEL_WARN;
   OT_LOG_LEVEL_NOTE; OT_LOG_LEVEL_INFO; OT_LOG_LEVEL_DEBG].

(** One call of [otbrLogv]: the level, the format and the arguments of
    the [va_list]. *)
Record otbrLogvCall := {
  log_level : otbrLogLevel;
  log_format : string;
  log_args : list Z
}.

(** [otPlatLog]: the call of [otbrLogv] it makes. *)
Definition otPlatLog `{LogLevels} (aLogLevel aLogRegion : Z)
  (aFormat : string) (ap : list Z) : otbrLogvCall :=
  let otbrLogLevel :=
    if aLogLevel =? OT_LOG_LEVEL_NONE then OTBR_LOG_EMERG
    else if aLogLevel =? OT_LOG_LEVEL_CRIT then OTBR_LOG_CRIT
    else if aLogLevel =? OT_LOG_LEVEL_WARN then OTBR_LOG_WARNING
    else if aLogLevel =? OT_LOG_LEVEL_NOTE then OTBR_LOG_NOTICE
    else if aLogLevel =? OT_LOG_LEVEL_INFO then OTBR_LOG_INFO
    else if aLogLevel =? OT_LOG_LEVEL_DEBG then OTBR_LOG_DEBUG
    else OTBR_LOG_DEBUG in
  {| log_level := otbrLogLevel; log_format := aFormat; log_args := ap |}.

(** [Controller::Create]. *)
Definition Controller_Create (aInterfaceName aRadioFile aRadioConfig : string)
  : ControllerOpenThread :=
  ControllerOpenThread_new aInterfaceName aRadioFile aRadioConfig.

(** The calls of [otSysInit] among the calls made. *)
Definition sys_inits (tr : list Event) : list (otPlatformConfig * otInstance) :=
  flat_map (fun e => match e with
                     | Ev_otSysInit cfg i => [(cfg, i)]
                     | _ => []
                     end) tr.

(** A timer is fired only when it is due. *)
Definition fired_when_due (now : time_point) (ev : Event) : Prop :=
  match ev with
  | Ev_TimerFired e => due e <= now
  | _ => True
  end.

(** A stack like the stand-in one whose callback registration fails. *)
Definition sim_stack_failing : SimStack :=
  {| sim_next_instance := 1;
     sim_register := OT_ERROR_FAILED;
     sim_pending := false;
     sim_resume := OT_ERROR_FAILED;
     sim_role := OT_DEVICE_ROLE_DETACHED;
     sim_name := "OpenThread";
     sim_xpanid := [];
     sim_pskc := [];
     sim_version := 2 |}.

(** A stack whose registration succeeds and whose resume action fails,
    the controller initialised on it, and an initialised controller whose
    stack has begun to refuse the registration. *)
Definition sim_stack_detached : SimStack :=
  {| sim_next_instance := 1;
     sim_register := OT_ERROR_NONE;
     sim_pending := true;
     sim_resume := OT_ERROR_INVALID_STATE;
     sim_role := OT_DEVICE_ROLE_DETACHED;
     sim_name := "OpenThread";
     sim_xpanid := [];
     sim_pskc := [];
     sim_version := 2 |}.

Definition sim_world_detached : World SimStack :=
  final (@Init SimStack SimOpenThread (boot "wpan0" "/dev/ttyUSB0" "" sim_stack_detached)).

Definition sim_world_stale : World SimStack :=
  Build_World (self sim_world) true (sim_bump sim_stack_failing).

(** Sample values of the log levels. *)
Definition sim_log_levels_distinct : NoDup [0; 1; 2; 3; 4; 5] :=
  ltac:(repeat constructor; cbn; intuition discriminate).

Definition SimLogLevels : LogLevels := {|
  OT_LOG_LEVEL_NONE := 0;
  OT_LOG_LEVEL_CRIT := 1;
  OT_LOG_LEVEL_WARN := 2;
  OT_LOG_LEVEL_NOTE := 3;
  OT_LOG_LEVEL_INFO := 4;
  OT_LOG_LEVEL_DEBG := 5;
  log_levels_distinct := sim_log_levels_distinct
|}.

(** The state the timer loop leaves: the queue and the hidden state are
    what it changes. *)
Definition with_timers_lib {Lib} (q : list TimerEntry) (l : Lib) (w : World Lib)
  : World Lib :=
  Build_World (set_mTimers q (self w)) (sReset w) l.


(** Unfolding of the monad's plumbing, to run adapter code symbolically. *)
Ltac mrun :=
  cbv [bind ret log gets modify call call_ query stop
       get_mInstance get_mThreadHelper];
  cbn [result final events self sReset lib with_self with_timers_lib
       set_mInstance set_mThreadHelper set_mTimers set_mTriedAttach set_sReset
       mConfig mInstance mThreadHelper mTimers mTriedAttach app fst snd negb].

(** The same, with the controller's pointer fields known. *)
Ltac mrun_ptr :=
  repeat (progress (mrun;
    repeat match goal with
    | H : mInstance (self ?w) = _ |- context [mInstance (self ?w)] => rewrite H
    | H : mThreadHelper (self ?w) = _ |- context [mThreadHelper (self ?w)] => rewrite H
    end)).

Ltac resume_free_events :=
  repeat (constructor; [reflexivity |]); try constructor.

Ltac lift_frame H :=
  destruct H as (Hc & Hq & Ht & Hr);
  unfold op_invariant; repeat split;
  [ assumption
  | rewrite Ht; assumption
  | assumption
  | eexists; exists []; rewrite app_nil_r;
    split; [reflexivity | split; [assumption | left; reflexivity]]
  | rewrite Hq; trivial ].

(* ------------------------------------------------------------------ *)
(** ** Properties *)

Section Properties.

Context {Lib : Type} {OT : OpenThread Lib} {DT : DeferredTasks Lib}.
Context {EC : EventCodes} {CF : ChangedFlags} {SC : SteadyClock}.

Lemma otError_eqb_eq (a b : otError) : otError_eqb a b = true <-> a = b.
Proof.
  destruct a, b; cbn; split; intro H; try reflexivity; discriminate H.
Qed.

Lemma flag_set_spec (aFlags mask : otChangedFlags) :
  flag_set aFlags mask = true <-> Z.land aFlags mask <> 0.
Proof.
  unfold flag_set.
  destruct (Z.eqb_spec (Z.land aFlags mask) 0) as [E | E]; cbn; split;
    intro H; try assumption; try reflexivity; try discriminate H.
  contradiction.
Qed.

(** *** The monad *)

Lemma bind_done {A B} (m : M Lib A) (k : A -> M Lib B) w a w' ev :
  m w = Build_Run (Done a) w' ev ->
  bind m k w = Build_Run (result (k a w')) (final (k a w')) (ev ++ events (k a w')).
Proof.
  intro E. unfold bind. rewrite E. destruct (k a w'); reflexivity.
Qed.

Lemma with_self_timers_id (w : World Lib) :
  with_self (set_mTimers (mTimers (self w))) w = w.
Proof.
  destruct w as [[cfg i h q t] s l]. reflexivity.
Qed.

Lemma with_self_timers_same (w : World Lib) q :
  mTimers (self w) = q -> with_self (set_mTimers q) w = w.
Proof.
  intros <-. apply with_self_timers_id.
Qed.

(** *** The timer queue *)

Lemma Forall_multimap_insert (P : TimerEntry -> Prop) e q :
  Forall P (multimap_insert e q) <-> P e /\ Forall P q.
Proof.
  induction q as [| h q IH]; cbn.
  - split; [intro H; inversion H; auto | intros [H _]; auto].
  - destruct (due e <? due h).
    + split; [intro H; inversion H; auto | intros [H1 H2]; auto].
    + split.
      * intro H. inversion H as [| ? ? Hh Ht]; subst.
        apply IH in Ht. destruct Ht. auto.
      * intros [He Hq]. inversion Hq as [| ? ? Hh Ht]; subst.
        constructor; [assumption |]. apply IH. auto.
Qed.

Lemma multimap_insert_sorted e q :
  timers_sorted q -> timers_sorted (multimap_insert e q).
Proof.
  unfold timers_sorted.
  induction q as [| h q IH]; cbn; intro Hs.
  - repeat constructor.
  - inversion Hs as [| ? ? Hq Hh]; subst.
    destruct (Z.ltb_spec (due e) (due h)) as [Hlt | Hge].
    + constructor; [assumption |].
      constructor; [lia |].
      eapply Forall_impl; [| exact Hh]. cbn. intros a Ha. lia.
    + constructor; [apply IH; assumption |].
      apply Forall_multimap_insert. auto.
Qed.

Lemma post_all_sorted ps q :
  timers_sorted q -> timers_sorted (post_all ps q).
Proof.
  unfold post_all. revert q.
  induction ps as [| p ps IH]; cbn; intros q Hs; [assumption |].
  apply IH. apply multimap_insert_sorted. assumption.
Qed.

Lemma Forall_post_all (P : TimerEntry -> Prop) ps q :
  Forall P (post_all ps q) <-> Forall P ps /\ Forall P q.
Proof.
  unfold post_all. revert q.
  induction ps as [| p ps IH]; cbn; intro q.
  - split; [auto | intros [_ H]; exact H].
  - rewrite IH, Forall_multimap_insert. split.
    + intros (Hps & Hp & Hq). auto.
    + intros (Hps & Hq). inversion Hps; subst. auto.
Qed.

(** A timer that is due no earlier than a run of entries goes in behind
    them. *)
Lemma multimap_insert_behind p front back :
  Forall (fun e => due e <= due p) front ->
  multimap_insert p (front ++ back) = front ++ multimap_insert p back.
Proof.
  induction front as [| h front IH]; cbn; intro H; [reflexivity |].
  inversion H as [| ? ? Hh Ht]; subst.
  destruct (Z.ltb_spec (due p) (due h)) as [Hlt | _]; [lia |].
  rewrite IH by assumption. reflexivity.
Qed.

Lemma post_all_behind ps front back :
  Forall (fun p => Forall (fun e => due e <= due p) front) ps ->
  post_all ps (front ++ back) = front ++ post_all ps back.
Proof.
  unfold post_all. revert back.
  induction ps as [| p ps IH]; cbn; intros back H; [reflexivity |].
  inversion H as [| ? ? Hp Hps]; subst.
  rewrite multimap_insert_behind by assumption.
  apply IH. assumption.
Qed.

(** A sorted queue is its due entries followed by its later ones. *)
Lemma sorted_split_at now q :
  timers_sorted q -> q = due_entries now q ++ later_entries now q.
Proof.
  unfold timers_sorted, due_entries, later_entries.
  induction q as [| h q IH]; cbn; intro Hs; [reflexivity |].
  inversion Hs as [| ? ? Hq Hh]; subst.
  destruct (Z.leb_spec (due h) now) as [Hle | Hgt];
    destruct (Z.ltb_spec now (due h)) as [Hlt | Hge]; try lia.
  - cbn. f_equal. apply IH. assumption.
  - assert (Forall (fun e => now < due e) q) as Hall.
    { eapply Forall_impl; [| exact Hh]. cbn. intros a Ha. lia. }
    clear - Hall.
    assert (filter (fun e => due e <=? now) q = [] /\
            filter (fun e => now <? due e) q = q) as [E1 E2].
    { induction Hall as [| a q Ha Hq [IH1 IH2]]; cbn; [auto |].
      destruct (Z.leb_spec (due a) now); [lia |].
      destruct (Z.ltb_spec now (due a)); [| lia].
      rewrite IH2. auto. }
    rewrite E1, E2. reflexivity.
Qed.

(** *** The timer loop *)

Lemma for_each_post_spec ps (w : World Lib) :
  for_each (fun p => PostTimerTask (fst p) (snd p)) ps w =
  Build_Run (Done tt)
    (with_self (set_mTimers (post_all ps (mTimers (self w)))) w) [].
Proof.
  revert w. induction ps as [| [t task] ps IH]; intro w.
  - cbn. unfold ret. rewrite with_self_timers_id. reflexivity.
  - cbn [for_each]. unfold bind at 1.
    unfold PostTimerTask at 1. unfold modify. cbn [result final events].
    rewrite IH. cbn. reflexivity.
Qed.

Lemma with_timers_lib_id (w : World Lib) :
  with_timers_lib (mTimers (self w)) (lib w) w = w.
Proof.
  destruct w as [[cfg i h q t] s l]. reflexivity.
Qed.

Lemma run_task_spec e (w : World Lib) :
  run_task e w =
  Build_Run (Done tt)
    (with_timers_lib
       (post_all (fst (invoke (snd e) (lib w))) (mTimers (self w)))
       (snd (invoke (snd e) (lib w))) w)
    [Ev_TimerFired e].
Proof.
  unfold run_task, bind, log, call. cbn [result final events].
  rewrite for_each_post_spec. reflexivity.
Qed.

Lemma erase_begin_spec (w : World Lib) e q :
  mTimers (self w) = e :: q ->
  erase_begin w =
  Build_Run (Done tt) (with_self (set_mTimers q) w) [Ev_TimerErased e].
Proof.
  intro E. unfold erase_begin. rewrite E. reflexivity.
Qed.

Lemma erase_begin_empty {B} (w : World Lib) (k : unit -> M Lib B) :
  mTimers (self w) = [] ->
  bind erase_begin k w = Build_Run Undefined w [].
Proof.
  intro E. unfold bind, erase_begin. rewrite E. reflexivity.
Qed.

Lemma fire_timers_unfold fuel now (w : World Lib) :
  fire_timers fuel now w =
  match mTimers (self w) with
  | [] => Build_Run (Done tt) w []
  | first :: _ =>
      if due first <=? now then
        match fuel with
        | O => Build_Run OutOfFuel w []
        | S fuel' =>
            (run_task first ;; erase_begin ;; fire_timers fuel' now) w
        end
      else Build_Run (Done tt) w []
  end.
Proof.
  destruct fuel; cbn [fire_timers]; unfold bind at 1, gets;
    cbn [result final events app];
    (destruct (mTimers (self w)) as [| first q];
     [destruct w; reflexivity |]);
    (destruct (due first <=? now); [| destruct w; reflexivity]).
  - destruct w; reflexivity.
  - match goal with |- context [bind ?m ?k ?w0] =>
      destruct (bind m k w0) as [res fin evs] end.
    destruct res; reflexivity.
Qed.

(** One turn of the loop on a queue whose first entry is due: the task
    of the first entry runs, the first entry of the queue as the task
    leaves it is erased, and the loop goes on. *)
Lemma fire_timers_turn fuel now (w : World Lib) first q e1 q1 :
  mTimers (self w) = first :: q ->
  due first <= now ->
  post_all (fst (invoke (snd first) (lib w))) (first :: q) = e1 :: q1 ->
  let w' := with_timers_lib q1 (snd (invoke (snd first) (lib w))) w in
  fire_timers (S fuel) now w =
  Build_Run (result (fire_timers fuel now w')) (final (fire_timers fuel now w'))
    (Ev_TimerFired first :: Ev_TimerErased e1 :: events (fire_timers fuel now w')).
Proof.
  intros Eq Hdue Hpost w'. rewrite fire_timers_unfold, Eq.
  destruct (Z.leb_spec (due first) now) as [_ | Hgt]; [| lia].
  rewrite (bind_done _ _ _ _ _ _ (run_task_spec first w)).
  rewrite Eq, Hpost. cbn [result final events].
  set (w1 := with_timers_lib (e1 :: q1) (snd (invoke (snd first) (lib w))) w).
  rewrite (bind_done _ _ _ _ _ _ (erase_begin_spec w1 e1 q1 eq_refl)).
  reflexivity.
Qed.

(** The queue a task leaves is not empty: the entry of the task is still
    in it. *)
Lemma post_all_cons_nonempty ps (h : TimerEntry) q :
  exists e1 q1, post_all ps (h :: q) = e1 :: q1 /\ (e1 = h \/ In e1 ps).
Proof.
  unfold post_all. revert h q.
  induction ps as [| p ps IH]; intros h q; cbn [fold_left].
  - exists h, q. auto.
  - cbn [multimap_insert]. destruct (due p <? due h).
    + destruct (IH p (h :: q)) as (e1 & q1 & E & [E1 | Hin]);
        exists e1, q1; (split; [exact E |]); right;
        [left; symmetry; exact E1 | right; exact Hin].
    + destruct (IH h (multimap_insert p q)) as (e1 & q1 & E & [E1 | Hin]);
        exists e1, q1; (split; [exact E |]);
        [left; exact E1 | right; right; exact Hin].
Qed.

(** The loop changes the queue and the hidden state and nothing else,
    makes no outside call but the tasks it runs, and keeps the queue
    sorted. *)
Lemma fire_timers_frame fuel now :
  forall w : World Lib,
  exists q' l',
    final (fire_timers fuel now w) = with_timers_lib q' l' w /\
    Forall (fun e => is_timer_event e = true) (events (fire_timers fuel now w)) /\
    (timers_sorted (mTimers (self w)) -> timers_sorted q').
Proof.
  assert (forall (w : World Lib) r,
            r = Build_Run (Done tt) w [] \/ r = Build_Run OutOfFuel w [] ->
            exists q' l',
              final r = with_timers_lib q' l' w /\
              Forall (fun e => is_timer_event e = true) (events r) /\
              (timers_sorted (mTimers (self w)) -> timers_sorted q')) as Hstop.
  { intros w r [-> | ->]; exists (mTimers (self w)), (lib w);
      cbn [final events]; rewrite with_timers_lib_id; auto. }
  induction fuel as [| fuel IH]; intro w.
  - apply Hstop. rewrite fire_timers_unfold.
    destruct (mTimers (self w)) as [| first q]; [auto |].
    destruct (due first <=? now); auto.
  - destruct (mTimers (self w)) as [| first q] eqn:Eq; rewrite <- Eq.
    { apply Hstop. rewrite fire_timers_unfold, Eq. auto. }
    destruct (Z.leb_spec (due first) now) as [Hle | Hgt].
    2:{ apply Hstop. rewrite fire_timers_unfold, Eq.
        destruct (Z.leb_spec (due first) now); [lia | auto]. }
    destruct (post_all_cons_nonempty (fst (invoke (snd first) (lib w))) first q)
      as (e1 & q1 & Hpost & _).
    rewrite (fire_timers_turn fuel now w first q e1 q1 Eq Hle Hpost).
    cbv zeta. cbn [final events].
    match goal with |- context [fire_timers fuel now ?w1] =>
      destruct (IH w1) as (q' & l' & Hf & Hev & Hs) end.
    exists q', l'. rewrite Hf. repeat split.
    + constructor; [reflexivity |]. constructor; [reflexivity | exact Hev].
    + intro Hsorted. apply Hs. cbn [with_timers_lib self mTimers set_mTimers].
      rewrite Eq in Hsorted.
      pose proof (post_all_sorted (fst (invoke (snd first) (lib w))) (first :: q)
                    Hsorted) as Hp.
      rewrite Hpost in Hp. unfold timers_sorted in *. now inversion Hp.
Qed.

(** The loop on a queue that starts with entries that are due, followed
    by entries that are not, whose tasks post timers for later only: it
    fires the due entries in queue order, erases each right after its task
    has run, and leaves the later entries with the posted timers. *)
Lemma fire_timers_due_prefix now dues :
  forall later (w : World Lib) fuel,
    mTimers (self w) = dues ++ later ->
    Forall (fun e => due e <= now) dues ->
    Forall (fun e => now < due e) later ->
    Forall (fun p => now < due p) (fst (posted_by dues (lib w))) ->
    (List.length dues <= fuel)%nat ->
    fire_timers fuel now w =
    Build_Run (Done tt)
      (with_timers_lib (post_all (fst (posted_by dues (lib w))) later)
         (snd (posted_by dues (lib w))) w)
      (fired_then_erased dues).
Proof.
  unfold fired_then_erased.
  induction dues as [| e dues IH]; intros later w fuel Hq Hdue Hlater Hposts Hfuel.
  - cbn in Hq. rewrite fire_timers_unfold, Hq. cbn [posted_by fst snd post_all fold_left flat_map].
    rewrite <- Hq, with_timers_lib_id, Hq.
    destruct later as [| first later']; [reflexivity |].
    inversion Hlater; subst.
    destruct (Z.leb_spec (due first) now); [lia | reflexivity].
  - destruct fuel as [| fuel]; [cbn in Hfuel; lia |].
    inversion Hdue as [| ? ? He Hdues]; subst.
    cbn [posted_by fst snd] in Hposts |- *.
    apply Forall_app in Hposts. destruct Hposts as [Hpe Hpd].
    set (ps := fst (invoke (snd e) (lib w))) in *.
    set (l1 := snd (invoke (snd e) (lib w))) in *.
    assert (post_all ps ((e :: dues) ++ later) =
            (e :: dues) ++ post_all ps later) as Hpost.
    { apply post_all_behind.
      eapply Forall_impl; [| exact Hpe]. cbn. intros p Hp.
      eapply Forall_impl; [| exact Hdue]. cbn. intros a Ha. lia. }
    cbn [app] in Hpost.
    set (later1 := post_all ps later) in *.
    rewrite (fire_timers_turn fuel now w e (dues ++ later) e (dues ++ later1)
               Hq He Hpost).
    cbv zeta. fold ps l1.
    rewrite (IH later1 (with_timers_lib (dues ++ later1) l1 w) fuel).
    + cbn [result final events flat_map app with_timers_lib self sReset lib
           set_mTimers mConfig mInstance mThreadHelper mTimers mTriedAttach].
      unfold post_all, later1, post_all. rewrite fold_left_app. reflexivity.
    + reflexivity.
    + assumption.
    + apply Forall_post_all. auto.
    + exact Hpd.
    + cbn in Hfuel. lia.
Qed.

(** *** What every operation preserves *)

Lemma timer_events_resume_free tr :
  Forall (fun e => is_timer_event e = true) tr -> resume_free tr.
Proof.
  intro H. eapply Forall_impl; [| exact H].
  intros [] Ht; cbn in *; congruence.
Qed.

Lemma resume_last_free (r : Run Lib unit) :
  resume_free (events r) -> resume_last r.
Proof.
  intro H. exists (events r), []. rewrite app_nil_r. auto.
Qed.

Lemma Process_invariant fuel now aMainloop (w : World Lib) :
  op_invariant w (Process fuel now aMainloop w).
Proof.
  unfold op_invariant, Process. mrun.
  destruct (mInstance (self w)) as [inst |]; mrun.
  2:{ repeat split; auto; try constructor.
      apply resume_last_free. constructor. }
  match goal with |- context [fire_timers fuel now ?w1] =>
    destruct (fire_timers_frame fuel now w1) as (q' & l' & Hf & Hev & Hs);
    destruct (fire_timers fuel now w1) as [res fin evs] end.
  cbn [result final events] in *. subst fin.
  apply timer_events_resume_free in Hev.
  assert (resume_free (Ev_otTaskletsProcess inst
            :: Ev_otSysMainloopProcess inst aMainloop :: evs)) as Hpre.
  { constructor; [reflexivity |]. constructor; [reflexivity | exact Hev]. }
  destruct res as [[] | | |]; mrun;
    try (repeat split; auto; apply resume_last_free; exact Hpre).
  destruct (mTriedAttach (self w)) eqn:Et; mrun.
  { rewrite ?app_nil_r. repeat split; auto.
    apply resume_last_free. cbn. rewrite ?app_nil_r. exact Hpre. }
  destruct (mThreadHelper (self w)) as [helper |]; mrun.
  2:{ rewrite ?app_nil_r. repeat split; auto; try discriminate.
      apply resume_last_free. cbn. rewrite ?app_nil_r. exact Hpre. }
  match goal with |- context [otError_eqb ?r OT_ERROR_NONE] =>
    destruct (otError_eqb r OT_ERROR_NONE) eqn:Er end; mrun.
  - repeat split; auto; try discriminate.
    exists (Ev_otTaskletsProcess inst :: Ev_otSysMainloopProcess inst aMainloop :: evs).
    eexists. split; [reflexivity |]. split; [exact Hpre |].
    right. eexists. eexists. split; [reflexivity |]. reflexivity.
  - repeat split; auto; try discriminate.
    exists (Ev_otTaskletsProcess inst :: Ev_otSysMainloopProcess inst aMainloop :: evs).
    eexists. split; [reflexivity |]. split; [exact Hpre |].
    right. eexists. eexists. split; [reflexivity |].
    intro Hn. apply otError_eqb_eq in Hn. congruence.
Qed.

Lemma Init_frame (w : World Lib) :
  mConfig (self (final (Init w))) = mConfig (self w) /\
  mTimers (self (final (Init w))) = mTimers (self w) /\
  mTriedAttach (self (final (Init w))) = mTriedAttach (self w) /\
  sReset (final (Init w)) = sReset w /\
  resume_free (events (Init w)) /\
  exists e, result (Init w) = Done e.
Proof.
  unfold Init. mrun.
  destruct (otError_eqb _ OT_ERROR_NONE); mrun;
    repeat split; auto; try resume_free_events; eauto.
Qed.

Lemma Reset_frame (w : World Lib) :
  mConfig (self (final (Reset w))) = mConfig (self w) /\
  mTimers (self (final (Reset w))) = mTimers (self w) /\
  mTriedAttach (self (final (Reset w))) = mTriedAttach (self w) /\
  resume_free (events (Reset w)).
Proof.
  unfold Reset, Init. mrun.
  destruct (mInstance (self w)) as [inst |]; mrun.
  - destruct (otError_eqb _ OT_ERROR_NONE); mrun;
      repeat split; auto; resume_free_events.
  - repeat split; auto. constructor.
Qed.

Lemma HandleStateChanged_frame aFlags (w : World Lib) :
  mConfig (self (final (HandleStateChanged aFlags w))) = mConfig (self w) /\
  mTimers (self (final (HandleStateChanged aFlags w))) = mTimers (self w) /\
  mTriedAttach (self (final (HandleStateChanged aFlags w))) = mTriedAttach (self w) /\
  resume_free (events (HandleStateChanged aFlags w)).
Proof.
  unfold HandleStateChanged.
  destruct (flag_set aFlags OT_CHANGED_THREAD_NETWORK_NAME);
    destruct (flag_set aFlags OT_CHANGED_THREAD_EXT_PANID);
    destruct (flag_set aFlags OT_CHANGED_THREAD_ROLE);
    mrun;
    destruct (mInstance (self w)) as [inst |] eqn:Ei;
    destruct (mThreadHelper (self w)) as [helper |] eqn:Eh; mrun_ptr;
    repeat split; auto; resume_free_events.
Qed.

Lemma UpdateFdSet_frame now aMainloop (w : World Lib) :
  mConfig (self (final (UpdateFdSet now aMainloop w))) = mConfig (self w) /\
  mTimers (self (final (UpdateFdSet now aMainloop w))) = mTimers (self w) /\
  mTriedAttach (self (final (UpdateFdSet now aMainloop w))) = mTriedAttach (self w) /\
  resume_free (events (UpdateFdSet now aMainloop w)).
Proof.
  unfold UpdateFdSet. mrun.
  destruct (mInstance (self w)) as [inst |]; mrun;
    repeat split; auto; resume_free_events.
Qed.

Lemma RequestEvent_frame aEvent (w : World Lib) :
  mConfig (self (final (RequestEvent aEvent w))) = mConfig (self w) /\
  mTimers (self (final (RequestEvent aEvent w))) = mTimers (self w) /\
  mTriedAttach (self (final (RequestEvent aEvent w))) = mTriedAttach (self w) /\
  resume_free (events (RequestEvent aEvent w)).
Proof.
  unfold RequestEvent.
  destruct (aEvent =? kEventExtPanId);
    [| destruct (aEvent =? kEventThreadState);
       [| destruct (aEvent =? kEventNetworkName);
          [| destruct (aEvent =? kEventPSKc);
             [| destruct (aEvent =? kEventThreadVersion)]]]];
    mrun;
    try (destruct (mInstance (self w)) as [inst |]; mrun);
    repeat split; auto; resume_free_events.
Qed.

Lemma bind_ret_tt_run {A} (m : M Lib A) (w : World Lib) :
  final ((_ <- m ;; ret tt) w) = final (m w) /\
  events ((_ <- m ;; ret tt) w) = events (m w).
Proof.
  unfold bind, ret. destruct (m w) as [[a | | |] fin evs]; cbn;
    rewrite ?app_nil_r; auto.
Qed.

Lemma run_op_invariant (o : Op) (w : World Lib) :
  op_invariant w (run_op o w).
Proof.
  destruct o as [| aFlags | now ml | fuel now ml | | aEvent | t task | inst];
    cbn [run_op].
  - destruct (bind_ret_tt_run Init w) as [Ef Ee].
    destruct (Init_frame w) as (Hc & Hq & Ht & _ & Hr & _).
    unfold op_invariant, resume_last. rewrite Ef, Ee.
    repeat split; auto; try (rewrite Ht; assumption);
      try (rewrite Hq; trivial).
    exists (events (Init w)), []. rewrite app_nil_r. auto.
  - lift_frame (HandleStateChanged_frame aFlags w).
  - destruct (bind_ret_tt_run (UpdateFdSet now ml) w) as [Ef Ee].
    destruct (UpdateFdSet_frame now ml w) as (Hc & Hq & Ht & Hr).
    unfold op_invariant, resume_last. rewrite Ef, Ee.
    repeat split; auto; try (rewrite Ht; assumption);
      try (rewrite Hq; trivial).
    exists (events (UpdateFdSet now ml w)), []. rewrite app_nil_r. auto.
  - apply Process_invariant.
  - lift_frame (Reset_frame w).
  - destruct (bind_ret_tt_run (RequestEvent aEvent) w) as [Ef Ee].
    destruct (RequestEvent_frame aEvent w) as (Hc & Hq & Ht & Hr).
    unfold op_invariant, resume_last. rewrite Ef, Ee.
    repeat split; auto; try (rewrite Ht; assumption);
      try (rewrite Hq; trivial).
    exists (events (RequestEvent aEvent w)), []. rewrite app_nil_r. auto.
  - unfold op_invariant, PostTimerTask. mrun.
    repeat split; auto; try constructor.
    + apply resume_last_free. constructor.
    + apply multimap_insert_sorted.
  - unfold op_invariant, otPlatReset. mrun.
    repeat split; auto; try constructor.
    apply resume_last_free. constructor.
Qed.

(** *** Runs of several operations *)

Lemma one_time_free tr : resume_free tr -> one_time tr.
Proof.
  induction 1 as [| e tr He Htr IH]; cbn; [exact I |].
  destruct e; cbn in He; try discriminate; exact IH.
Qed.

Lemma one_time_app_free tr tr' :
  resume_free tr -> one_time tr' -> one_time (tr ++ tr').
Proof.
  induction 1 as [| e tr He Htr IH]; cbn; intro H'; [exact H' |].
  destruct e; cbn in He; try discriminate; auto.
Qed.

Lemma one_time_split tr pre helper post :
  one_time tr ->
  tr = pre ++ Ev_TryResumeNetwork helper OT_ERROR_NONE :: post ->
  resume_free post.
Proof.
  revert tr. induction pre as [| e pre IH]; intros tr H E; subst tr.
  - exact H.
  - cbn in H.
    assert (resume_free (pre ++ Ev_TryResumeNetwork helper OT_ERROR_NONE :: post)
            -> resume_free post) as Hdrop.
    { intro Hf. apply Forall_app in Hf. destruct Hf as [_ Hf].
      now inversion Hf. }
    destruct e; try (eapply IH; [exact H | reflexivity]).
    destruct result0; try (eapply IH; [exact H | reflexivity]).
    apply Hdrop. exact H.
Qed.

Lemma resume_free_not_in tr :
  resume_free tr -> forall h r, ~ In (Ev_TryResumeNetwork h r) tr.
Proof.
  intros Hf h r Hin. unfold resume_free in Hf. rewrite Forall_forall in Hf.
  specialize (Hf _ Hin). discriminate Hf.
Qed.

Lemma run_ops_invariant ops :
  forall w : World Lib, run_invariant w (run_ops ops w).
Proof.
  induction ops as [| o ops IH]; intro w.
  - cbn. unfold run_invariant, ret. cbn.
    repeat split; auto; try constructor.
  - change (run_ops (o :: ops) w) with (bind (run_op o) (fun _ => run_ops ops) w).
    destruct (run_op_invariant o w) as (Hc & Ht & (p & s & Ee & Hp & Hs) & Hq).
    unfold bind.
    destruct (run_op o w) as [res w1 ev1]. cbn [result final events] in *.
    assert (one_time ev1 /\
            (forall h, In (Ev_TryResumeNetwork h OT_ERROR_NONE) ev1 ->
                       mTriedAttach (self w1) = true)) as [Ho Hin1].
    { subst ev1. destruct Hs as [-> | (h & r & -> & Hr)].
      - split; [apply one_time_free; rewrite app_nil_r; exact Hp |].
        intros h Hin. rewrite app_nil_r in Hin.
        exfalso. exact (resume_free_not_in _ Hp _ _ Hin).
      - split.
        + apply one_time_app_free; [exact Hp |].
          destruct r; cbn; auto. constructor.
        + intros h' Hin. apply in_app_or in Hin. destruct Hin as [Hin | Hin].
          * exfalso. exact (resume_free_not_in _ Hp _ _ Hin).
          * destruct Hin as [Hin | []]. inversion Hin; subst. auto. }
    destruct res as [[] | | |];
      try (unfold run_invariant; cbn [result final events];
           repeat split; auto; apply Ht; assumption).
    specialize (IH w1). destruct IH as (Hc2 & Ht2 & Ho2 & Hin2 & Hq2).
    destruct (run_ops ops w1) as [res2 w2 ev2]. cbn [result final events] in *.
    unfold run_invariant. cbn [result final events].
    split; [congruence |]. split; [| split; [| split]].
    + intro Hw. destruct (Ht Hw) as [Ht1 Hf1]. destruct (Ht2 Ht1) as [Ht3 Hf2].
      split; [exact Ht3 |]. apply Forall_app. auto.
    + subst ev1. rewrite <- app_assoc. apply one_time_app_free; [exact Hp |].
      destruct Hs as [-> | (h & r & -> & Hr)]; [exact Ho2 |].
      cbn [app]. destruct r; cbn; auto.
      apply Ht2. apply Hr. reflexivity.
    + intros h Hin. apply in_app_or in Hin. destruct Hin as [Hin | Hin].
      * apply Ht2. eapply Hin1. exact Hin.
      * eapply Hin2. exact Hin.
    + auto.
Qed.

(** C4.  [Init] registers the state-change callback once, on the instance
    it has just created, and does not try again: the stack is left as that
    one registration left it.  [Init] returns [OTBR_ERROR_OPENTHREAD]
    exactly when the stack's registration does not return [OT_ERROR_NONE],
    and [OTBR_ERROR_NONE] otherwise. *)
Theorem Init_fails_iff_registration_fails (w : World Lib) :
  let created := otSysInit (mConfig (self w)) (lib w) in
  let inst := fst created in
  let registered :=
    otSetStateChangedCallback inst (otCliUartInit inst (snd created)) in
  let r := fst registered in
  registrations (events (Init w)) = [(inst, r)] /\
  lib (final (Init w)) = snd registered /\
  (r <> OT_ERROR_NONE -> result (Init w) = Done OTBR_ERROR_OPENTHREAD) /\
  (r = OT_ERROR_NONE -> result (Init w) = Done OTBR_ERROR_NONE) /\
  (exists e, result (Init w) = Done e /\
             (e <> OTBR_ERROR_NONE <-> r <> OT_ERROR_NONE)).
Proof.
  cbv zeta. unfold Init. mrun.
  set (inst := fst (otSysInit (mConfig (self w)) (lib w))).
  set (r := fst (otSetStateChangedCallback inst _)).
  destruct (otError_eqb r OT_ERROR_NONE) eqn:E; cbn.
  - apply otError_eqb_eq in E.
    repeat split; intros; try congruence.
    exists OTBR_ERROR_NONE. repeat split; intros; congruence.
  - assert (r <> OT_ERROR_NONE) as Hr.
    { intro Hr. apply otError_eqb_eq in Hr. congruence. }
    repeat split; intros; try congruence.
    exists OTBR_ERROR_OPENTHREAD.
    repeat split; intros; try congruence; try discriminate.
Qed.

(** C6.  After [otPlatReset] the reset flag reads true; [Reset] on an
    initialised controller completes, and after it the flag reads false,
    whatever it was before. *)
Theorem reset_flag_set_then_cleared :
  (forall (w : World Lib) (aInstance : otInstance),
      result (otPlatReset aInstance w) = Done tt /\
      result (IsResetRequested (final (otPlatReset aInstance w))) = Done true) /\
  (forall (w : World Lib) (inst : otInstance),
      mInstance (self w) = Some inst ->
      result (Reset w) = Done tt /\
      result (IsResetRequested (final (Reset w))) = Done false).
Proof.
  split.
  - intros w aInstance. split; reflexivity.
  - intros w inst Hinst.
    unfold Reset, Init, IsResetRequested. mrun. rewrite Hinst. mrun.
    destruct (otError_eqb _ OT_ERROR_NONE); split; reflexivity.
Qed.

(** C9.  [RequestEvent] reaches [assert(false)] for every code outside
    the five it serves and for none of the five; for those it returns
    [OTBR_ERROR_NONE], and it never returns anything else. *)
Theorem RequestEvent_assert_or_none (aEvent : Z) (w : World Lib) :
  (~ In aEvent requestable_events ->
   result (RequestEvent aEvent w) = AssertFailed /\
   events (RequestEvent aEvent w) = []) /\
  (In aEvent requestable_events ->
   result (RequestEvent aEvent w) <> AssertFailed) /\
  (In aEvent requestable_events -> mInstance (self w) <> None ->
   result (RequestEvent aEvent w) = Done OTBR_ERROR_NONE) /\
  (forall e, result (RequestEvent aEvent w) = Done e -> e = OTBR_ERROR_NONE).
Proof.
  unfold requestable_events, RequestEvent. cbn [In].
  destruct (Z.eqb_spec aEvent kEventExtPanId) as [E1 | E1];
    [| destruct (Z.eqb_spec aEvent kEventThreadState) as [E2 | E2];
       [| destruct (Z.eqb_spec aEvent kEventNetworkName) as [E3 | E3];
          [| destruct (Z.eqb_spec aEvent kEventPSKc) as [E4 | E4];
             [| destruct (Z.eqb_spec aEvent kEventThreadVersion) as [E5 | E5]]]]];
    mrun;
    try (destruct (mInstance (self w)) as [inst |]; mrun;
         repeat split; intros; try congruence; try discriminate;
         try (exfalso; intuition congruence);
         match goal with H : Done _ = Done _ |- _ => now inversion H end).
Qed.

Lemma event_codes_neq :
  kEventExtPanId <> kEventThreadState /\
  kEventExtPanId <> kEventNetworkName /\
  kEventExtPanId <> kEventPSKc /\
  kEventExtPanId <> kEventThreadVersion /\
  kEventThreadState <> kEventNetworkName /\
  kEventThreadState <> kEventPSKc /\
  kEventThreadState <> kEventThreadVersion /\
  kEventNetworkName <> kEventPSKc /\
  kEventNetworkName <> kEventThreadVersion /\
  kEventPSKc <> kEventThreadVersion.
Proof.
  pose proof event_codes_distinct as H.
  inversion H as [| ? ? H1 H1']; subst.
  inversion H1' as [| ? ? H2 H2']; subst.
  inversion H2' as [| ? ? H3 H3']; subst.
  inversion H3' as [| ? ? H4 H4']; subst.
  cbn [In] in *. intuition congruence.
Qed.

Lemma attached_switch_spec (role : otDeviceRole) :
  match role with
  | OT_DEVICE_ROLE_CHILD | OT_DEVICE_ROLE_ROUTER | OT_DEVICE_ROLE_LEADER => true
  | _ => false
  end = true <-> role_attached role.
Proof.
  unfold role_attached.
  destruct role; split; intro H; try reflexivity; try discriminate H;
    try (now left); try (now right; left); try (now right; right);
    destruct H as [H | [H | H]]; discriminate H.
Qed.

Lemma HandleStateChanged_events (w : World Lib) inst aFlags :
  mInstance (self w) = Some inst ->
  events (HandleStateChanged aFlags w) =
    (if flag_set aFlags OT_CHANGED_THREAD_NETWORK_NAME
     then [Ev_Emit kEventNetworkName
             (EmitString (otThreadGetNetworkName inst (lib w)))]
     else []) ++
    (if flag_set aFlags OT_CHANGED_THREAD_EXT_PANID
     then [Ev_Emit kEventExtPanId
             (EmitBytes (otThreadGetExtendedPanId inst (lib w)))]
     else []) ++
    (if flag_set aFlags OT_CHANGED_THREAD_ROLE
     then [Ev_Emit kEventThreadState
             (EmitBool
                match otThreadGetDeviceRole inst (lib w) with
                | OT_DEVICE_ROLE_CHILD
                | OT_DEVICE_ROLE_ROUTER
                | OT_DEVICE_ROLE_LEADER => true
                | _ => false
                end)]
     else []) ++
    match mThreadHelper (self w) with
    | Some helper => [Ev_StateChangedCallback helper aFlags]
    | None => []
    end.
Proof.
  intro Hinst. unfold HandleStateChanged.
  destruct (flag_set aFlags OT_CHANGED_THREAD_NETWORK_NAME);
    destruct (flag_set aFlags OT_CHANGED_THREAD_EXT_PANID);
    destruct (flag_set aFlags OT_CHANGED_THREAD_ROLE);
    destruct (mThreadHelper (self w)) as [helper |] eqn:Eh;
    mrun_ptr; reflexivity.
Qed.

(** C7.  With the role the stack reports, the attachment state that
    [HandleStateChanged] publishes when the role bit is set, and the one
    [RequestEvent] publishes for [kEventThreadState], is true exactly for
    child, router and leader. *)
Theorem attachment_published_iff_role_attached
  (w : World Lib) (inst : otInstance) (aFlags : otChangedFlags) :
  mInstance (self w) = Some inst ->
  let role := otThreadGetDeviceRole inst (lib w) in
  (flag_set aFlags OT_CHANGED_THREAD_ROLE = true ->
   exists attached,
     In (Ev_Emit kEventThreadState (EmitBool attached))
        (events (HandleStateChanged aFlags w))) /\
  (forall attached,
     In (Ev_Emit kEventThreadState (EmitBool attached))
        (events (HandleStateChanged aFlags w)) ->
     (attached = true <-> role_attached role)) /\
  (exists attached,
     events (RequestEvent kEventThreadState w) =
       [Ev_Emit kEventThreadState (EmitBool attached)] /\
     (attached = true <-> role_attached role)).
Proof.
  intros Hinst role.
  pose proof (attached_switch_spec role) as Hsw.
  rewrite (HandleStateChanged_events w inst aFlags Hinst).
  split; [| split].
  - intro Hbit. rewrite Hbit. eexists.
    apply in_or_app. right. apply in_or_app. right.
    apply in_or_app. left. left. reflexivity.
  - intros attached Hin.
    repeat (apply in_app_or in Hin; destruct Hin as [Hin | Hin]).
    + destruct (flag_set aFlags OT_CHANGED_THREAD_NETWORK_NAME);
        cbn in Hin; intuition discriminate.
    + destruct (flag_set aFlags OT_CHANGED_THREAD_EXT_PANID);
        cbn in Hin; intuition discriminate.
    + destruct (flag_set aFlags OT_CHANGED_THREAD_ROLE); cbn in Hin;
        [| contradiction].
      destruct Hin as [Hin | []]. inversion Hin; subst. exact Hsw.
    + destruct (mThreadHelper (self w)); cbn in Hin; intuition discriminate.
  - eexists. split; [| exact Hsw].
    unfold RequestEvent.
    destruct event_codes_neq as (N1 & _).
    destruct (Z.eqb_spec kEventThreadState kEventExtPanId) as [E | _];
      [congruence |].
    rewrite Z.eqb_refl. mrun_ptr. reflexivity.
Qed.

(** C1 (as amended).  On an initialised controller [HandleStateChanged]
    returns, and what it sends out is, in this order: the network name if
    its bit is set, the extended PAN ID if its bit is set, the attachment
    state if the role bit is set, and then the unchanged mask to the
    helper.  It publishes neither the PSKc nor the protocol version. *)
Theorem HandleStateChanged_relays
  (w : World Lib) (inst : otInstance) (helper : ThreadHelper)
  (aFlags : otChangedFlags) :
  initialized w inst helper ->
  let r := HandleStateChanged aFlags w in
  result r = Done tt /\
  (exists attached,
     events r =
       (if flag_set aFlags OT_CHANGED_THREAD_NETWORK_NAME
        then [Ev_Emit kEventNetworkName
                (EmitString (otThreadGetNetworkName inst (lib w)))]
        else []) ++
       (if flag_set aFlags OT_CHANGED_THREAD_EXT_PANID
        then [Ev_Emit kEventExtPanId
                (EmitBytes (otThreadGetExtendedPanId inst (lib w)))]
        else []) ++
       (if flag_set aFlags OT_CHANGED_THREAD_ROLE
        then [Ev_Emit kEventThreadState (EmitBool attached)]
        else []) ++
       [Ev_StateChangedCallback helper aFlags]) /\
  (forall arg, ~ In (Ev_Emit kEventPSKc arg) (events r)) /\
  (forall arg, ~ In (Ev_Emit kEventThreadVersion arg) (events r)).
Proof.
  intros [Hinst Hhelper] r. subst r.
  destruct event_codes_neq as (_ & _ & N3 & N4 & _ & N6 & N7 & N8 & N9 & _).
  rewrite (HandleStateChanged_events w inst aFlags Hinst), Hhelper.
  split; [| split; [| split]].
  - unfold HandleStateChanged.
    destruct (flag_set aFlags OT_CHANGED_THREAD_NETWORK_NAME);
      destruct (flag_set aFlags OT_CHANGED_THREAD_EXT_PANID);
      destruct (flag_set aFlags OT_CHANGED_THREAD_ROLE);
      mrun_ptr; reflexivity.
  - eexists. reflexivity.
  - intros arg Hin.
    destruct (flag_set aFlags OT_CHANGED_THREAD_NETWORK_NAME);
      destruct (flag_set aFlags OT_CHANGED_THREAD_EXT_PANID);
      destruct (flag_set aFlags OT_CHANGED_THREAD_ROLE);
      cbn in Hin;
      repeat (destruct Hin as [Hin | Hin]; [inversion Hin; congruence |]);
      exact Hin.
  - intros arg Hin.
    destruct (flag_set aFlags OT_CHANGED_THREAD_NETWORK_NAME);
      destruct (flag_set aFlags OT_CHANGED_THREAD_EXT_PANID);
      destruct (flag_set aFlags OT_CHANGED_THREAD_ROLE);
      cbn in Hin;
      repeat (destruct Hin as [Hin | Hin]; [inversion Hin; congruence |]);
      exact Hin.
Qed.

(** C5.  In a run of operations, once a call of the resume action has
    returned [OT_ERROR_NONE], the tried-attach flag is set at the end of
    the run and no later call of the resume action is made. *)
Theorem resume_is_one_time
  (ops : list Op) (w : World Lib) (pre post : list Event) (helper : ThreadHelper) :
  events (run_ops ops w) =
    pre ++ Ev_TryResumeNetwork helper OT_ERROR_NONE :: post ->
  mTriedAttach (self (final (run_ops ops w))) = true /\
  (forall h r, ~ In (Ev_TryResumeNetwork h r) post).
Proof.
  intro E.
  destruct (run_ops_invariant ops w) as (_ & _ & Ho & Hin & _).
  split.
  - apply (Hin helper). rewrite E. apply in_or_app. right. left. reflexivity.
  - apply resume_free_not_in. eapply one_time_split; [exact Ho | exact E].
Qed.

(** With the tried-attach flag set, no operation calls the resume action,
    and the flag stays set. *)
Lemma no_resume_once_attached (ops : list Op) (w : World Lib) :
  mTriedAttach (self w) = true ->
  mTriedAttach (self (final (run_ops ops w))) = true /\
  (forall h r, ~ In (Ev_TryResumeNetwork h r) (events (run_ops ops w))).
Proof.
  intro Ht.
  destruct (run_ops_invariant ops w) as (_ & Hk & _).
  destruct (Hk Ht) as [Ht' Hf]. split; [exact Ht' |].
  apply resume_free_not_in. exact Hf.
Qed.

(** C8.  The constructor stores its arguments in the configuration, with
    the radio reset on start and a speed-up factor of one; no operation
    changes the configuration, so after any run of operations it is still
    what the constructor stored. *)
Theorem config_fixed_at_construction
  (aInterfaceName aRadioFile aRadioConfig : string) (l : Lib) :
  let cfg := {| mInterfaceName := aInterfaceName;
                mRadioFile := aRadioFile;
                mRadioConfig := aRadioConfig;
                mResetRadio := true;
                mSpeedUpFactor := 1 |} in
  mConfig (ControllerOpenThread_new aInterfaceName aRadioFile aRadioConfig) = cfg /\
  (forall (o : Op) (w : World Lib),
      mConfig (self (final (run_op o w))) = mConfig (self w)) /\
  (forall ops : list Op,
      mConfig (self (final (run_ops ops
                 (boot aInterfaceName aRadioFile aRadioConfig l)))) = cfg).
Proof.
  cbv zeta. split; [reflexivity |]. split.
  - intros o w. apply (run_op_invariant o w).
  - intro ops.
    destruct (run_ops_invariant ops (boot aInterfaceName aRadioFile aRadioConfig l))
      as (Hc & _).
    rewrite Hc. reflexivity.
Qed.

(** C10 (as amended).  Of the controller, [Reset] changes the instance
    and the helper and nothing else: it leaves the timer queue, the
    tried-attach flag and the configuration as they were.  So every timer
    posted before is still queued, and if the resume action had succeeded
    before, no later operation calls it. *)
Theorem Reset_keeps_timers_and_tried_attach (w : World Lib) :
  let w' := final (Reset w) in
  changes_instance_and_helper_only (self w) (self w') /\
  mTimers (self w') = mTimers (self w) /\
  mTriedAttach (self w') = mTriedAttach (self w) /\
  mConfig (self w') = mConfig (self w) /\
  (forall e, In e (mTimers (self w)) -> In e (mTimers (self w'))) /\
  (mTriedAttach (self w) = true ->
   forall ops h r, ~ In (Ev_TryResumeNetwork h r) (events (run_ops ops w'))).
Proof.
  cbv zeta.
  destruct (Reset_frame w) as (Hc & Hq & Ht & _).
  split; [| repeat split; try assumption].
  - unfold changes_instance_and_helper_only, Reset, Init.
    destruct w as [[cfg i h q t] s l]. mrun.
    destruct i as [inst |]; mrun; [| reflexivity].
    destruct (otError_eqb _ OT_ERROR_NONE); mrun; reflexivity.
  - intros e He. rewrite Hq. exact He.
  - intros Hw ops.
    apply (no_resume_once_attached ops (final (Reset w))).
    rewrite Ht. exact Hw.
Qed.

(** X2.  The queue of a controller is sorted after every run of
    operations since its construction. *)
Lemma timers_sorted_invariant
  (aInterfaceName aRadioFile aRadioConfig : string) (l : Lib) (ops : list Op) :
  timers_sorted
    (mTimers (self (final (run_ops ops
       (boot aInterfaceName aRadioFile aRadioConfig l))))).
Proof.
  apply (run_ops_invariant ops). constructor.
Qed.

(** After an [Init] that returned [OTBR_ERROR_NONE] the controller is
    initialised. *)
Lemma Init_initializes (w : World Lib) :
  result (Init w) = Done OTBR_ERROR_NONE ->
  exists inst, initialized (final (Init w)) inst {| helper_instance := inst |}.
Proof.
  unfold Init, initialized. mrun.
  destruct (otError_eqb _ OT_ERROR_NONE); mrun; intro H.
  - eexists. split; reflexivity.
  - discriminate H.
Qed.

(** *** The timer loop inside [Process] *)

Lemma timer_events_fired_erased es :
  timer_events (fired_then_erased es) = fired_then_erased es.
Proof.
  unfold timer_events, fired_then_erased.
  induction es as [| e es IH]; cbn; [reflexivity |]. now rewrite IH.
Qed.

Lemma due_entries_sorted now q :
  timers_sorted q -> timers_sorted (due_entries now q).
Proof.
  unfold timers_sorted, due_entries.
  induction 1 as [| h q Hq IH Hh]; cbn; [constructor |].
  destruct (due h <=? now); [| exact IH].
  constructor; [exact IH |].
  rewrite Forall_forall in *. intros x Hx.
  apply filter_In in Hx. apply Hh. tauto.
Qed.

Lemma multimap_insert_perm p q : Permutation (multimap_insert p q) (p :: q).
Proof.
  induction q as [| h q IH]; cbn; [reflexivity |].
  destruct (due p <? due h); [reflexivity |].
  rewrite IH. apply perm_swap.
Qed.

Lemma post_all_perm ps q : Permutation (post_all ps q) (ps ++ q).
Proof.
  unfold post_all. revert q.
  induction ps as [| p ps IH]; cbn; intro q; [reflexivity |].
  rewrite IH, multimap_insert_perm. symmetry. apply Permutation_middle.
Qed.

Lemma In_post_all e ps q : In e q -> In e (post_all ps q).
Proof.
  intro Hin. apply (Permutation_in _ (Permutation_sym (post_all_perm ps q))).
  apply in_or_app. right. exact Hin.
Qed.








(** What [Process] does once its timer loop has returned. *)
Lemma Process_after_loop fuel now aMainloop (w : World Lib) inst helper fired left l' :
  initialized w inst helper ->
  fire_timers fuel now
    (Build_World (self w) (sReset w)
       (otSysMainloopProcess inst aMainloop (otTaskletsProcess inst (lib w)))) =
  Build_Run (Done tt)
    (with_timers_lib left l'
       (Build_World (self w) (sReset w)
          (otSysMainloopProcess inst aMainloop (otTaskletsProcess inst (lib w)))))
    (fired_then_erased fired) ->
  result (Process fuel now aMainloop w) = Done tt /\
  mTimers (self (final (Process fuel now aMainloop w))) = left /\
  timer_events (events (Process fuel now aMainloop w)) = fired_then_erased fired.
Proof.
  intros [Hinst Hhelper] Hrun. unfold Process. mrun_ptr. rewrite Hrun. mrun_ptr.
  pose proof (timer_events_fired_erased fired) as Hte.
  destruct (mTriedAttach (self w)); mrun_ptr;
    [| destruct (otError_eqb _ OT_ERROR_NONE)]; cbn [result final events];
    (split; [reflexivity |]); (split; [reflexivity |]);
    unfold timer_events in *; cbn [filter is_timer_event];
    rewrite filter_app, Hte; cbn; apply app_nil_r.
Qed.


(** X3.  When the tasks that are due post timers for later than [now]
    only, the entries fired are the due entries of the queue in queue order, and
    the queue left is its later entries with the posted timers added. *)
Lemma Process_fires_due_prefix
  (w : World Lib) (inst : otInstance) (helper : ThreadHelper)
  (fuel : nat) (now : time_point) (aMainloop : otSysMainloopContext) :
  initialized w inst helper ->
  timers_sorted (mTimers (self w)) ->
  let q := mTimers (self w) in
  let l0 := otSysMainloopProcess inst aMainloop (otTaskletsProcess inst (lib w)) in
  Forall (fun p => now < due p) (fst (posted_by (due_entries now q) l0)) ->
  (List.length (due_entries now q) <= fuel)%nat ->
  let r := Process fuel now aMainloop w in
  result r = Done tt /\
  timer_events (events r) = fired_then_erased (due_entries now q) /\
  timers_sorted (due_entries now q) /\
  mTimers (self (final r)) =
    post_all (fst (posted_by (due_entries now q) l0)) (later_entries now q).
Proof.
  intros Hinit Hsorted q l0 Hposts Hfuel r. subst q r.
  set (dues := due_entries now (mTimers (self w))) in *.
  set (later := later_entries now (mTimers (self w))).
  assert (Forall (fun e => due e <= now) dues) as Hdues.
  { apply Forall_forall. intros x Hx. apply filter_In in Hx.
    destruct Hx as [_ Hx]. lia. }
  assert (Forall (fun e => now < due e) later) as Hlater.
  { apply Forall_forall. intros x Hx. apply filter_In in Hx.
    destruct Hx as [_ Hx]. lia. }
  pose proof (sorted_split_at now _ Hsorted) as Hsplit.
  fold dues later in Hsplit.
  set (w0 := Build_World (self w) (sReset w) l0).
  pose proof (fire_timers_due_prefix now dues later w0 fuel
                Hsplit Hdues Hlater Hposts Hfuel) as Hrun.
  destruct (Process_after_loop fuel now aMainloop w inst helper dues _ _
              Hinit Hrun) as (Hres & Hq & Hev).
  split; [exact Hres |]. split; [exact Hev |].
  split; [apply due_entries_sorted; exact Hsorted | exact Hq].
Qed.

(** *** The timeout of [UpdateFdSet] *)

Lemma int64_wrap_fits z : int64_min <= z <= int64_max -> int64_wrap z = z.
Proof.
  unfold int64_wrap, int64_min, int64_max. intro H.
  rewrite Z.mod_small; lia.
Qed.

Lemma int64_wrap_range z : int64_min <= int64_wrap z <= int64_max.
Proof.
  unfold int64_wrap, int64_min, int64_max.
  pose proof (Z.mod_pos_bound (z + 9223372036854775808) 18446744073709551616).
  lia.
Qed.

Lemma int64_wrap_multiple z :
  exists k, int64_wrap z = z + k * 18446744073709551616.
Proof.
  unfold int64_wrap.
  exists (- ((z + 9223372036854775808) / 18446744073709551616)).
  pose proof (Z.div_mod (z + 9223372036854775808) 18446744073709551616).
  lia.
Qed.

Lemma int64_wrap_add_wrap a b : int64_wrap (a + int64_wrap b) = int64_wrap (a + b).
Proof.
  unfold int64_wrap.
  replace (a + ((b + 9223372036854775808) mod 18446744073709551616
                - 9223372036854775808) + 9223372036854775808)
    with (a + (b + 9223372036854775808) mod 18446744073709551616) by lia.
  rewrite Z.add_mod_idemp_r by lia.
  do 2 f_equal. lia.
Qed.

(** The count the code reads from a [timeval] is the exact count, wrapped. *)
Lemma timeval_us_count tv : timeval_us tv = int64_wrap (timeval_count tv).
Proof.
  unfold timeval_us, timeval_count. apply int64_wrap_add_wrap.
Qed.

Lemma timeval_us_range tv : int64_min <= timeval_us tv <= int64_max.
Proof.
  rewrite timeval_us_count. apply int64_wrap_range.
Qed.

Lemma timeval_us_fits tv :
  int64_min <= timeval_count tv <= int64_max -> timeval_us tv = timeval_count tv.
Proof.
  intro H. rewrite timeval_us_count. apply int64_wrap_fits. exact H.
Qed.

Lemma timeval_count_ToTimeVal t : timeval_count (ToTimeVal t) = t.
Proof.
  unfold timeval_count, ToTimeVal, kUsPerSecond. cbn [tv_sec tv_usec].
  pose proof (Z.quot_rem' t 1000000). lia.
Qed.

Lemma timeval_us_ToTimeVal t :
  int64_min <= t <= int64_max -> timeval_us (ToTimeVal t) = t.
Proof.
  intro H. rewrite timeval_us_fits; rewrite timeval_count_ToTimeVal; auto.
Qed.

Lemma earliest_due_in q d :
  earliest_due q = Some d -> exists e, In e q /\ due e = d.
Proof.
  revert d. induction q as [| h q IH]; cbn; intros d E; [discriminate |].
  destruct (earliest_due q) as [d' |].
  - inversion E; subst. destruct (Z.min_spec (due h) d') as [[_ ->] | [_ ->]].
    + exists h. auto.
    + destruct (IH d' eq_refl) as (e & He & Hd). exists e. auto.
  - inversion E; subst. exists h. auto.
Qed.

Lemma earliest_due_sorted h q :
  timers_sorted (h :: q) -> earliest_due (h :: q) = Some (due h).
Proof.
  unfold timers_sorted. intro Hs. inversion Hs as [| ? ? _ Hh]; subst.
  cbn. destruct (earliest_due q) as [d |] eqn:E; [| reflexivity].
  destruct (earliest_due_in q d E) as (e & He & Hd).
  rewrite Forall_forall in Hh. specialize (Hh e He).
  f_equal. lia.
Qed.

Lemma duration_cast_us_sign d :
  (0 <= d -> 0 <= duration_cast_us d) /\ (d < 0 -> duration_cast_us d <= 0).
Proof.
  unfold duration_cast_us. pose proof ticks_per_us_pos as Hp. split; intro H.
  - apply Z.quot_pos; lia.
  - assert (0 <= Z.quot (- d) ticks_per_us) as H' by (apply Z.quot_pos; lia).
    rewrite Z.quot_opp_l in H' by lia. lia.
Qed.

Lemma duration_cast_us_range d :
  int64_min <= d <= int64_max ->
  int64_min <= duration_cast_us d <= int64_max.
Proof.
  unfold duration_cast_us, int64_min, int64_max.
  pose proof ticks_per_us_pos as Hp. intro H.
  destruct (Z.le_gt_cases 0 d) as [Hd | Hd].
  - assert (0 <= Z.quot d ticks_per_us) by (apply Z.quot_pos; lia).
    assert (ticks_per_us * Z.quot d ticks_per_us <= d)
      by (apply Z.mul_quot_le; lia).
    nia.
  - assert (0 <= Z.quot (- d) ticks_per_us) as Hq by (apply Z.quot_pos; lia).
    assert (ticks_per_us * Z.quot (- d) ticks_per_us <= - d) as Hm
      by (apply Z.mul_quot_le; lia).
    rewrite Z.quot_opp_l in Hq, Hm by lia. nia.
Qed.

(** The delay to a timer that is not yet due, between time points in
    range, is computed exactly. *)
Lemma gap_in_range now (first : TimerEntry) q :
  clock_in_range now (first :: q) -> now <= due first ->
  int64_wrap (due first - now) = due first - now.
Proof.
  intros [Hnow Hall] Hge. inversion Hall as [| ? ? Hf _]; subst.
  apply int64_wrap_fits. unfold int64_min, int64_max in *. lia.
Qed.

Lemma wake_timeout_spec requested pending timers now :
  0 <= requested ->
  timers_sorted timers ->
  clock_in_range now timers ->
  wake_timeout requested pending timers now =
  next_wake_spec requested pending timers now.
Proof.
  intros Hreq Hs Hclock. unfold wake_timeout, next_wake_spec.
  destruct timers as [| first q].
  - cbn. destruct pending; cbn; lia.
  - rewrite (earliest_due_sorted first q Hs).
    destruct (duration_cast_us_sign (due first - now)) as [Hpos Hneg].
    destruct (Z.ltb_spec (due first) now) as [Hlt | Hge];
      [| rewrite (gap_in_range now first q Hclock Hge)];
      destruct pending; cbn; lia.
Qed.

(** The timeout settled on is a 64-bit count when the requested one is,
    and it is never above a requested one that is not negative. *)
Lemma wake_timeout_range tv pending timers now :
  int64_min <= wake_timeout (timeval_us tv) pending timers now <= int64_max.
Proof.
  pose proof (timeval_us_range tv) as Hr.
  unfold wake_timeout.
  destruct pending; [unfold int64_min, int64_max; lia |].
  destruct timers as [| first q]; [exact Hr |].
  destruct (Z.ltb_spec (due first) now) as [Hlt | Hge];
    [unfold int64_min, int64_max; lia |].
  pose proof (duration_cast_us_range _ (int64_wrap_range (due first - now))).
  lia.
Qed.

Lemma wake_timeout_le requested pending timers now :
  0 <= requested -> wake_timeout requested pending timers now <= requested.
Proof.
  intro Hreq. unfold wake_timeout.
  destruct pending; [lia |].
  destruct timers as [| first q]; [lia |].
  destruct (Z.ltb_spec (due first) now) as [Hlt | Hge]; lia.
Qed.

Lemma wake_timeout_nonneg requested pending timers now :
  0 <= requested -> clock_in_range now timers ->
  0 <= wake_timeout requested pending timers now.
Proof.
  intros Hreq Hclock. unfold wake_timeout.
  destruct pending; [lia |].
  destruct timers as [| first q]; [exact Hreq |].
  destruct (Z.ltb_spec (due first) now) as [Hlt | Hge]; [lia |].
  rewrite (gap_in_range now first q Hclock Hge).
  destruct (duration_cast_us_sign (due first - now)) as [Hpos _]. lia.
Qed.

(** C3 (as amended).  On an initialised controller, for a requested
    timeout whose fields are not negative and whose length in
    microseconds is a 64-bit count, and for time points in range,
    [UpdateFdSet] hands the library the context with its timeout replaced
    by the minimum of zero when tasklets are pending, the delay until the
    earliest timer, not below zero, and the requested timeout; that
    timeout is never above the requested one, and it is not negative. *)
Theorem UpdateFdSet_timeout_is_minimum
  (w : World Lib) (inst : otInstance) (now : time_point)
  (aMainloop : otSysMainloopContext) :
  mInstance (self w) = Some inst ->
  timers_sorted (mTimers (self w)) ->
  timeout_in_range (mTimeout aMainloop) ->
  clock_in_range now (mTimers (self w)) ->
  let r := UpdateFdSet now aMainloop w in
  exists passed,
    events r = [Ev_otSysMainloopUpdate inst passed] /\
    result r = Done (fst (otSysMainloopUpdate inst passed (lib w))) /\
    passed = set_mTimeout (mTimeout passed) aMainloop /\
    wake_time_claim (mTimeout aMainloop) (otTaskletsArePending inst (lib w))
      (mTimers (self w)) now (mTimeout passed) /\
    0 <= timeval_count (mTimeout passed).
Proof.
  intros Hinst Hs (Hsec & Husec & Hfit) Hclock r. subst r.
  assert (0 <= timeval_count (mTimeout aMainloop)) as Hreq
    by (unfold timeval_count; lia).
  assert (timeval_us (mTimeout aMainloop) = timeval_count (mTimeout aMainloop))
    as Hus by (apply timeval_us_fits; unfold int64_min; lia).
  unfold UpdateFdSet. mrun_ptr. rewrite Hus.
  eexists. split; [reflexivity |]. split; [reflexivity |].
  split; [reflexivity |].
  cbn [mTimeout set_mTimeout]. unfold wake_time_claim.
  rewrite timeval_count_ToTimeVal.
  split; [split; [apply wake_timeout_spec; assumption |] |].
  - apply wake_timeout_le. exact Hreq.
  - apply wake_timeout_nonneg; assumption.
Qed.

End Properties.

(** C1, the claim as stated fails: with every bit of the mask set, the
    relay sends out the network name, the extended PAN ID and the
    attachment state, and neither the PSKc nor the protocol version. *)
Lemma HandleStateChanged_omits_pskc_and_version :
  let r := @HandleStateChanged SimStack SimOpenThread SimEventCodes
             SimChangedFlags 4294967295 sim_world in
  result r = Done tt /\
  events r =
    [Ev_Emit (@kEventNetworkName SimEventCodes) (EmitString "OpenThread");
     Ev_Emit (@kEventExtPanId SimEventCodes)
       (EmitBytes [xde; xad; x00; xbe; xef; x00; xca; xfe]);
     Ev_Emit (@kEventThreadState SimEventCodes) (EmitBool true);
     Ev_StateChangedCallback {| helper_instance := 1 |} 4294967295] /\
  ~ (exists arg, In (Ev_Emit (@kEventPSKc SimEventCodes) arg) (events r)) /\
  ~ (exists arg, In (Ev_Emit (@kEventThreadVersion SimEventCodes) arg) (events r)).
Proof.
  cbv zeta.
  assert (events (@HandleStateChanged SimStack SimOpenThread SimEventCodes
             SimChangedFlags 4294967295 sim_world) =
    [Ev_Emit (@kEventNetworkName SimEventCodes) (EmitString "OpenThread");
     Ev_Emit (@kEventExtPanId SimEventCodes)
       (EmitBytes [xde; xad; x00; xbe; xef; x00; xca; xfe]);
     Ev_Emit (@kEventThreadState SimEventCodes) (EmitBool true);
     Ev_StateChangedCallback {| helper_instance := 1 |} 4294967295]) as E
    by (vm_compute; reflexivity).
  rewrite E.
  split; [vm_compute; reflexivity |].
  split; [reflexivity |].
  split; intros [arg Hin]; cbn in Hin;
    repeat (destruct Hin as [Hin | Hin]; [discriminate Hin |]); exact Hin.
Qed.

(** [HandleStateChanged_relays] at the stand-in controller, role bit set. *)
Lemma HandleStateChanged_relays_witness :
  initialized sim_world 1 {| helper_instance := 1 |} /\
  result (@HandleStateChanged SimStack SimOpenThread SimEventCodes
            SimChangedFlags 4 sim_world) = Done tt.
Proof.
  assert (initialized sim_world 1 {| helper_instance := 1 |}) as Hi
    by (split; reflexivity).
  split; [exact Hi |].
  apply (@HandleStateChanged_relays SimStack SimOpenThread SimEventCodes
           SimChangedFlags sim_world 1 {| helper_instance := 1 |} 4 Hi).
Defined.




Lemma sim_world_timers_sorted : timers_sorted (mTimers (self sim_world_timers)).
Proof.
  repeat constructor; cbn; lia.
Defined.


(** X3.  [Process_fires_due_prefix] at the same controller. *)
Lemma Process_fires_due_prefix_witness :
  initialized sim_world_timers 1 {| helper_instance := 1 |} /\
  timer_events
    (events (@Process SimStack SimOpenThread SimTasks 1 6000 sim_mainloop
               sim_world_timers)) =
  fired_then_erased (due_entries 6000 (mTimers (self sim_world_timers))).
Proof.
  assert (initialized sim_world_timers 1 {| helper_instance := 1 |}) as Hi
    by (split; reflexivity).
  split; [exact Hi |].
  apply (@Process_fires_due_prefix SimStack SimOpenThread SimTasks sim_world_timers
           1 {| helper_instance := 1 |} 1%nat 6000 sim_mainloop Hi
           sim_world_timers_sorted).
  - repeat constructor; cbn; lia.
  - cbn. lia.
Defined.

(** C3, the claim as stated fails at both ends of the range of requested
    timeouts.  With a negative requested timeout and tasklets pending,
    the timeout handed on is zero, which is above the requested one.  With
    a requested timeout of 9223372036855 seconds, which is more
    microseconds than a 64-bit count holds, the count wraps around and
    the timeout handed on is negative: it is not the requested timeout,
    which is the minimum when nothing is pending and no timer queued. *)
Lemma UpdateFdSet_timeout_not_minimum :
  (events (@UpdateFdSet SimStack SimOpenThread SimSteadyClock 1000
             sim_mainloop_negative sim_world_detached) =
     [Ev_otSysMainloopUpdate 1
        (set_mTimeout {| tv_sec := 0; tv_usec := 0 |} sim_mainloop_negative)] /\
   ~ @wake_time_claim SimSteadyClock (mTimeout sim_mainloop_negative)
       (@otTaskletsArePending SimStack SimOpenThread 1 (lib sim_world_detached))
       (mTimers (self sim_world_detached)) 1000 {| tv_sec := 0; tv_usec := 0 |}) /\
  (events (@UpdateFdSet SimStack SimOpenThread SimSteadyClock 1000
             sim_mainloop_overlong sim_world) =
     [Ev_otSysMainloopUpdate 1
        (set_mTimeout {| tv_sec := -9223372036854; tv_usec := -551616 |}
           sim_mainloop_overlong)] /\
   ~ @wake_time_claim SimSteadyClock (mTimeout sim_mainloop_overlong)
       (@otTaskletsArePending SimStack SimOpenThread 1 (lib sim_world))
       (mTimers (self sim_world)) 1000
       {| tv_sec := -9223372036854; tv_usec := -551616 |}).
Proof.
  split; (split; [vm_compute; reflexivity |]);
    unfold wake_time_claim; intros [H1 H2].
  - vm_compute in H2. apply H2. reflexivity.
  - vm_compute in H1. discriminate H1.
Qed.

(** [UpdateFdSet_timeout_is_minimum] at the stand-in controller with two
    timers, one millisecond after the clock's origin. *)
Lemma UpdateFdSet_timeout_is_minimum_witness :
  exists passed,
    events (@UpdateFdSet SimStack SimOpenThread SimSteadyClock 1000 sim_mainloop
              sim_world_timers) = [Ev_otSysMainloopUpdate 1 passed] /\
    timeval_count (mTimeout passed) = 4.
Proof.
  destruct (@UpdateFdSet_timeout_is_minimum SimStack SimOpenThread SimSteadyClock
              sim_world_timers 1 1000 sim_mainloop)
    as (passed & Hev & _ & _ & [Hmin _] & _).
  - reflexivity.
  - exact sim_world_timers_sorted.
  - repeat split; vm_compute; discriminate.
  - split; [lia | repeat constructor; vm_compute; discriminate].
  - exists passed. split; [exact Hev |]. rewrite Hmin. reflexivity.
Defined.

(** C10, the claim as stated fails: [Reset] on the stand-in controller
    replaces the helper, bound to instance 1, by one bound to the new
    instance 2, so the instance is not all it changes. *)
Lemma Reset_replaces_helper :
  let w' := final (@Reset SimStack SimOpenThread sim_world) in
  mThreadHelper (self sim_world) = Some {| helper_instance := 1 |} /\
  mThreadHelper (self w') = Some {| helper_instance := 2 |} /\
  ~ changes_instance_only (self sim_world) (self w').
Proof.
  cbv zeta. split; [reflexivity |]. split; [reflexivity |].
  unfold changes_instance_only. intro H.
  apply (f_equal mThreadHelper) in H. vm_compute in H. discriminate H.
Qed.

(** [resume_is_one_time] at two iterations of the stand-in controller:
    the first calls the resume action, the second does not. *)
Lemma resume_is_one_time_witness :
  let ops := [OpProcess 0 0 sim_mainloop; OpProcess 0 1 sim_mainloop] in
  let run := @run_ops SimStack SimOpenThread SimTasks SimEventCodes SimChangedFlags
               SimSteadyClock ops sim_world in
  events run =
    [Ev_otTaskletsProcess 1; Ev_otSysMainloopProcess 1 sim_mainloop] ++
    Ev_TryResumeNetwork {| helper_instance := 1 |} OT_ERROR_NONE ::
    [Ev_otTaskletsProcess 1; Ev_otSysMainloopProcess 1 sim_mainloop] /\
  mTriedAttach (self (final run)) = true.
Proof.
  cbv zeta.
  assert (events (@run_ops SimStack SimOpenThread SimTasks SimEventCodes SimChangedFlags
               SimSteadyClock
               [OpProcess 0 0 sim_mainloop; OpProcess 0 1 sim_mainloop] sim_world) =
    [Ev_otTaskletsProcess 1; Ev_otSysMainloopProcess 1 sim_mainloop] ++
    Ev_TryResumeNetwork {| helper_instance := 1 |} OT_ERROR_NONE ::
    [Ev_otTaskletsProcess 1; Ev_otSysMainloopProcess 1 sim_mainloop]) as E
    by reflexivity.
  split; [exact E |].
  apply (@resume_is_one_time SimStack SimOpenThread SimTasks SimEventCodes SimChangedFlags
           SimSteadyClock _ _ _ _ _ E).
Defined.

(** [attachment_published_iff_role_attached] at the stand-in controller,
    whose stack reports the router role. *)
Lemma attachment_published_iff_role_attached_witness :
  mInstance (self sim_world) = Some 1 /\
  exists attached,
    events (@RequestEvent SimStack SimOpenThread SimEventCodes
              (@kEventThreadState SimEventCodes) sim_world) =
      [Ev_Emit (@kEventThreadState SimEventCodes) (EmitBool attached)] /\
    (attached = true <-> role_attached OT_DEVICE_ROLE_ROUTER).
Proof.
  split; [reflexivity |].
  apply (@attachment_published_iff_role_attached SimStack SimOpenThread
           SimEventCodes SimChangedFlags sim_world 1 4 eq_refl).
Defined.

(* ------------------------------------------------------------------ *)
(** ** Further properties of the code *)

Section Coverage.

Context {Lib : Type} {OT : OpenThread Lib} {DT : DeferredTasks Lib}.
Context {EC : EventCodes} {CF : ChangedFlags} {SC : SteadyClock}.
Context {LL : LogLevels}.

(** X4.  [ToTimeVal] and the reading of a [timeval] in microseconds are
    inverse to each other within the range of a 64-bit count: every such
    count is read back from its [timeval]; a count that is not negative
    gives a normalised [timeval], a negative one gives fields that are not
    positive; a normalised [timeval] whose length fits the count is what
    [ToTimeVal] gives for the count read from it.  Beyond that range the
    count read is still a 64-bit count, off the length of the [timeval]
    by a multiple of [2^64]. *)
Theorem ToTimeVal_round_trip :
  (forall t : microseconds,
     int64_min <= t <= int64_max -> timeval_us (ToTimeVal t) = t) /\
  (forall t : microseconds, 0 <= t ->
     0 <= tv_sec (ToTimeVal t) /\ 0 <= tv_usec (ToTimeVal t) < 1000000) /\
  (forall t : microseconds, t < 0 ->
     tv_sec (ToTimeVal t) <= 0 /\ -1000000 < tv_usec (ToTimeVal t) <= 0) /\
  (forall tv : timeval,
     0 <= tv_sec tv -> 0 <= tv_usec tv < 1000000 ->
     timeval_count tv <= int64_max ->
     ToTimeVal (timeval_us tv) = tv) /\
  (forall tv : timeval,
     int64_min <= timeval_us tv <= int64_max /\
     exists k, timeval_us tv = timeval_count tv + k * 18446744073709551616).
Proof.
  split; [| split; [| split; [| split]]].
  - intros t Ht. apply timeval_us_ToTimeVal. exact Ht.
  - intros t Ht. unfold ToTimeVal, kUsPerSecond. cbn [tv_sec tv_usec]. split.
    + apply Z.quot_pos; lia.
    + apply Z.rem_bound_pos; lia.
  - intros t Ht. unfold ToTimeVal, kUsPerSecond. cbn [tv_sec tv_usec]. split.
    + assert (0 <= Z.quot (- t) 1000000) as H by (apply Z.quot_pos; lia).
      rewrite Z.quot_opp_l in H by lia. lia.
    + pose proof (Z.rem_bound_pos_neg t 1000000). lia.
  - intros tv Hsec Husec Hfit.
    rewrite timeval_us_fits
      by (unfold timeval_count, int64_min in *; lia).
    destruct tv as [sec usec]. unfold timeval_count, ToTimeVal, kUsPerSecond in *.
    cbn [tv_sec tv_usec] in *.
    assert (0 <= usec + sec * 1000000) as Hnn by lia.
    rewrite Z.quot_div_nonneg, Z.rem_mod_nonneg by lia.
    rewrite Z.div_add, Z.mod_add by lia.
    rewrite Z.div_small, Z.mod_small by lia.
    f_equal; lia.
  - intro tv. split; [apply timeval_us_range |].
    rewrite timeval_us_count. apply int64_wrap_multiple.
Qed.

Lemma log_levels_neq :
  OT_LOG_LEVEL_NONE <> OT_LOG_LEVEL_CRIT /\
  OT_LOG_LEVEL_NONE <> OT_LOG_LEVEL_WARN /\
  OT_LOG_LEVEL_NONE <> OT_LOG_LEVEL_NOTE /\
  OT_LOG_LEVEL_NONE <> OT_LOG_LEVEL_INFO /\
  OT_LOG_LEVEL_NONE <> OT_LOG_LEVEL_DEBG /\
  OT_LOG_LEVEL_CRIT <> OT_LOG_LEVEL_WARN /\
  OT_LOG_LEVEL_CRIT <> OT_LOG_LEVEL_NOTE /\
  OT_LOG_LEVEL_CRIT <> OT_LOG_LEVEL_INFO /\
  OT_LOG_LEVEL_CRIT <> OT_LOG_LEVEL_DEBG /\
  OT_LOG_LEVEL_WARN <> OT_LOG_LEVEL_NOTE /\
  OT_LOG_LEVEL_WARN <> OT_LOG_LEVEL_INFO /\
  OT_LOG_LEVEL_WARN <> OT_LOG_LEVEL_DEBG /\
  OT_LOG_LEVEL_NOTE <> OT_LOG_LEVEL_INFO /\
  OT_LOG_LEVEL_NOTE <> OT_LOG_LEVEL_DEBG /\
  OT_LOG_LEVEL_INFO <> OT_LOG_LEVEL_DEBG.
Proof.
  pose proof log_levels_distinct as H.
  inversion H as [| ? ? H1 H1']; subst.
  inversion H1' as [| ? ? H2 H2']; subst.
  inversion H2' as [| ? ? H3 H3']; subst.
  inversion H3' as [| ? ? H4 H4']; subst.
  inversion H4' as [| ? ? H5 H5']; subst.
  cbn [In] in *. intuition congruence.
Qed.

Lemma otPlatLog_level_cases (aLogLevel aLogRegion : Z) fmt ap :
  (aLogLevel = OT_LOG_LEVEL_NONE /\
   log_level (otPlatLog aLogLevel aLogRegion fmt ap) = OTBR_LOG_EMERG) \/
  (aLogLevel = OT_LOG_LEVEL_CRIT /\
   log_level (otPlatLog aLogLevel aLogRegion fmt ap) = OTBR_LOG_CRIT) \/
  (aLogLevel = OT_LOG_LEVEL_WARN /\
   log_level (otPlatLog aLogLevel aLogRegion fmt ap) = OTBR_LOG_WARNING) \/
  (aLogLevel = OT_LOG_LEVEL_NOTE /\
   log_level (otPlatLog aLogLevel aLogRegion fmt ap) = OTBR_LOG_NOTICE) \/
  (aLogLevel = OT_LOG_LEVEL_INFO /\
   log_level (otPlatLog aLogLevel aLogRegion fmt ap) = OTBR_LOG_INFO) \/
  (aLogLevel = OT_LOG_LEVEL_DEBG /\
   log_level (otPlatLog aLogLevel aLogRegion fmt ap) = OTBR_LOG_DEBUG) \/
  (~ In aLogLevel known_log_levels /\
   log_level (otPlatLog aLogLevel aLogRegion fmt ap) = OTBR_LOG_DEBUG).
Proof.
  destruct log_levels_neq as
    (N1 & N2 & N3 & N4 & N5 & N6 & N7 & N8 & N9 & N10 & N11 & N12 & N13 & N14 & N15).
  unfold otPlatLog, known_log_levels. cbn [log_level In].
  destruct (Z.eqb_spec aLogLevel OT_LOG_LEVEL_NONE); [tauto |].
  destruct (Z.eqb_spec aLogLevel OT_LOG_LEVEL_CRIT); [tauto |].
  destruct (Z.eqb_spec aLogLevel OT_LOG_LEVEL_WARN); [tauto |].
  destruct (Z.eqb_spec aLogLevel OT_LOG_LEVEL_NOTE); [tauto |].
  destruct (Z.eqb_spec aLogLevel OT_LOG_LEVEL_INFO); [tauto |].
  destruct (Z.eqb_spec aLogLevel OT_LOG_LEVEL_DEBG); [tauto |].
  do 6 right. split; [| reflexivity]. intuition congruence.
Qed.

(** X5.  [otPlatLog] hands format and arguments to [otbrLogv] unchanged
    and ignores the region.  It never logs at the alert or error level;
    it logs at the debug level exactly for [OT_LOG_LEVEL_DEBG] and for
    levels it does not know; and two known levels that are logged at the
    same level are the same. *)
Theorem otPlatLog_level_mapping (aLogLevel aLogRegion : Z) (aFormat : string)
  (ap : list Z) :
  let c := otPlatLog aLogLevel aLogRegion aFormat ap in
  log_format c = aFormat /\ log_args c = ap /\
  (forall region, otPlatLog aLogLevel region aFormat ap = c) /\
  log_level c <> OTBR_LOG_ALERT /\ log_level c <> OTBR_LOG_ERR /\
  (log_level c = OTBR_LOG_DEBUG <->
   aLogLevel = OT_LOG_LEVEL_DEBG \/ ~ In aLogLevel known_log_levels) /\
  (forall l region fmt args,
     In aLogLevel known_log_levels -> In l known_log_levels ->
     log_level (otPlatLog l region fmt args) = log_level c ->
     l = aLogLevel).
Proof.
  cbv zeta.
  destruct log_levels_neq as
    (N1 & N2 & N3 & N4 & N5 & N6 & N7 & N8 & N9 & N10 & N11 & N12 & N13 & N14 & N15).
  pose proof (otPlatLog_level_cases aLogLevel aLogRegion aFormat ap) as Hc.
  split; [reflexivity |]. split; [reflexivity |]. split; [reflexivity |].
  split; [| split; [| split]].
  - intuition congruence.
  - intuition congruence.
  - unfold known_log_levels in *. cbn [In] in *. split.
    + intro Hd. rewrite Hd in Hc. intuition (try discriminate; try congruence).
    + intros [-> | Hn].
      * intuition (try congruence).
      * intuition (try congruence); exfalso; apply Hn; subst; tauto.
  - intros l region fmt args Hin Hin' Heq.
    pose proof (otPlatLog_level_cases l region fmt args) as Hc'.
    rewrite Heq in Hc'.
    destruct Hc as [[-> E] | [[-> E] | [[-> E] | [[-> E] | [[-> E] | [[-> E] | [Hn E]]]]]]];
      try contradiction; rewrite E in Hc';
      destruct Hc' as [[-> E'] | [[-> E'] | [[-> E'] | [[-> E'] | [[-> E'] | [[-> E'] | [Hn' E']]]]]]];
      try discriminate E'; try reflexivity; contradiction.
Qed.

(** *** [UpdateFdSet] *)

Lemma UpdateFdSet_run (w : World Lib) inst now aMainloop :
  mInstance (self w) = Some inst ->
  let passed :=
    set_mTimeout
      (ToTimeVal (wake_timeout (timeval_us (mTimeout aMainloop))
                    (otTaskletsArePending inst (lib w))
                    (mTimers (self w)) now))
      aMainloop in
  events (UpdateFdSet now aMainloop w) = [Ev_otSysMainloopUpdate inst passed] /\
  result (UpdateFdSet now aMainloop w) =
    Done (fst (otSysMainloopUpdate inst passed (lib w))) /\
  self (final (UpdateFdSet now aMainloop w)) = self w /\
  sReset (final (UpdateFdSet now aMainloop w)) = sReset w.
Proof.
  intros Hinst passed. subst passed. unfold UpdateFdSet. mrun_ptr.
  repeat split; reflexivity.
Qed.

Lemma sorted_head_least (first : TimerEntry) q e :
  timers_sorted (first :: q) -> In e (first :: q) -> due first <= due e.
Proof.
  unfold timers_sorted. intros Hs Hin.
  inversion Hs as [| ? ? _ Hall]; subst.
  destruct Hin as [<- | Hin]; [lia |].
  rewrite Forall_forall in Hall. exact (Hall e Hin).
Qed.

(** X6.  The timeout [UpdateFdSet] hands to the library never reaches
    past a queued timer: counted in clock ticks from [now], it ends at or
    before the due time of every entry of the queue that is not yet due,
    and it is at most zero when an entry is due already. *)
Theorem UpdateFdSet_never_oversleeps
  (w : World Lib) (inst : otInstance) (now : time_point)
  (aMainloop : otSysMainloopContext) :
  mInstance (self w) = Some inst ->
  timers_sorted (mTimers (self w)) ->
  exists passed,
    events (UpdateFdSet now aMainloop w) = [Ev_otSysMainloopUpdate inst passed] /\
    (forall e, In e (mTimers (self w)) ->
       timeval_us (mTimeout passed) * ticks_per_us <= Z.max 0 (due e - now)).
Proof.
  intros Hinst Hs.
  destruct (UpdateFdSet_run w inst now aMainloop Hinst) as (Hev & _).
  eexists. split; [exact Hev |].
  cbn [mTimeout set_mTimeout].
  rewrite timeval_us_ToTimeVal by apply wake_timeout_range.
  intros e Hin. pose proof ticks_per_us_pos as Hticks.
  unfold wake_timeout.
  destruct (otTaskletsArePending inst (lib w)); [lia |].
  destruct (mTimers (self w)) as [| first q]; [contradiction |].
  pose proof (sorted_head_least first q e Hs Hin) as Hleast.
  destruct (Z.ltb_spec (due first) now) as [Hlt | Hge]; [lia |].
  set (gap := int64_wrap (due first - now)).
  assert (gap <= due first - now) as Hgap.
  { unfold gap. pose proof (int64_wrap_range (due first - now)) as Hr.
    destruct (Z.le_gt_cases (due first - now) int64_max) as [Hfit | Hover];
      [| lia].
    rewrite int64_wrap_fits; [lia | unfold int64_min; lia]. }
  destruct (duration_cast_us_sign gap) as [Hpos Hneg].
  destruct (Z.le_gt_cases 0 gap) as [Hg | Hg].
  - assert (ticks_per_us * duration_cast_us gap <= gap)
      as Hq by (unfold duration_cast_us; apply Z.mul_quot_le; lia).
    nia.
  - specialize (Hneg Hg). nia.
Qed.

(** X7.  When tasklets are pending or a queued timer is due, and the
    requested timeout, as the 64-bit count the code reads from it, is not
    negative, [UpdateFdSet] hands the library a zero timeout: the host
    loop does not block. *)
Theorem UpdateFdSet_zero_when_work_is_due
  (w : World Lib) (inst : otInstance) (now : time_point)
  (aMainloop : otSysMainloopContext) :
  mInstance (self w) = Some inst ->
  timers_sorted (mTimers (self w)) ->
  0 <= timeval_us (mTimeout aMainloop) ->
  (otTaskletsArePending inst (lib w) = true \/
   exists e, In e (mTimers (self w)) /\ due e <= now) ->
  events (UpdateFdSet now aMainloop w) =
    [Ev_otSysMainloopUpdate inst
       (set_mTimeout {| tv_sec := 0; tv_usec := 0 |} aMainloop)].
Proof.
  intros Hinst Hs Hreq Hwork.
  destruct (UpdateFdSet_run w inst now aMainloop Hinst) as (Hev & _).
  rewrite Hev. do 3 f_equal.
  assert (wake_timeout (timeval_us (mTimeout aMainloop))
            (otTaskletsArePending inst (lib w)) (mTimers (self w)) now = 0)
    as ->; [| reflexivity].
  unfold wake_timeout.
  destruct (otTaskletsArePending inst (lib w)); [reflexivity |].
  destruct Hwork as [Hp | (e & Hin & Hdue)]; [discriminate Hp |].
  destruct (mTimers (self w)) as [| first q]; [contradiction |].
  pose proof (sorted_head_least first q e Hs Hin) as Hleast.
  destruct (Z.ltb_spec (due first) now) as [Hlt | Hge]; [reflexivity |].
  assert (due first - now = 0) as -> by lia.
  change (int64_wrap 0) with 0.
  unfold duration_cast_us. rewrite Z.quot_0_l by (pose proof ticks_per_us_pos; lia).
  lia.
Qed.

(** X8.  For a requested timeout that is not negative as the 64-bit
    count the code reads from it, and for time points in range,
    [UpdateFdSet] hands the library a normalised timeout (seconds not
    negative, microseconds below one million) and the descriptor sets of
    the caller as they are; it changes neither the controller nor the
    reset flag. *)
Theorem UpdateFdSet_passes_valid_timeval
  (w : World Lib) (inst : otInstance) (now : time_point)
  (aMainloop : otSysMainloopContext) :
  mInstance (self w) = Some inst ->
  0 <= timeval_us (mTimeout aMainloop) ->
  clock_in_range now (mTimers (self w)) ->
  exists passed,
    events (UpdateFdSet now aMainloop w) = [Ev_otSysMainloopUpdate inst passed] /\
    0 <= tv_sec (mTimeout passed) /\
    0 <= tv_usec (mTimeout passed) < 1000000 /\
    mMaxFd passed = mMaxFd aMainloop /\
    mReadFdSet passed = mReadFdSet aMainloop /\
    mWriteFdSet passed = mWriteFdSet aMainloop /\
    mErrorFdSet passed = mErrorFdSet aMainloop /\
    self (final (UpdateFdSet now aMainloop w)) = self w /\
    sReset (final (UpdateFdSet now aMainloop w)) = sReset w.
Proof.
  intros Hinst Hreq Hclock.
  destruct (UpdateFdSet_run w inst now aMainloop Hinst) as (Hev & _ & Hself & Hflag).
  eexists. split; [exact Hev |].
  cbn [mTimeout set_mTimeout mMaxFd mReadFdSet mWriteFdSet mErrorFdSet].
  assert (0 <= wake_timeout (timeval_us (mTimeout aMainloop))
                  (otTaskletsArePending inst (lib w)) (mTimers (self w)) now)
    as Hnn by (apply wake_timeout_nonneg; assumption).
  unfold ToTimeVal, kUsPerSecond. cbn [tv_sec tv_usec].
  split; [apply Z.quot_pos; lia |].
  split; [apply Z.rem_bound_pos; lia |].
  repeat split; assumption || reflexivity.
Qed.

(** X22.  A requested timeout that is negative as the 64-bit count the
    code reads from it, be it negative as given or too long for the count,
    goes through to the library when no tasklet is pending and no timer is
    overdue: the library is handed a timeout whose fields are not
    positive and not both zero. *)
Theorem UpdateFdSet_negative_request_passes_through
  (w : World Lib) (inst : otInstance) (now : time_point)
  (aMainloop : otSysMainloopContext) :
  mInstance (self w) = Some inst ->
  timeval_us (mTimeout aMainloop) < 0 ->
  otTaskletsArePending inst (lib w) = false ->
  (forall e q, mTimers (self w) = e :: q -> now <= due e) ->
  clock_in_range now (mTimers (self w)) ->
  let passed := ToTimeVal (timeval_us (mTimeout aMainloop)) in
  events (UpdateFdSet now aMainloop w) =
    [Ev_otSysMainloopUpdate inst (set_mTimeout passed aMainloop)] /\
  tv_sec passed <= 0 /\ -1000000 < tv_usec passed <= 0 /\
  (tv_sec passed < 0 \/ tv_usec passed < 0).
Proof.
  intros Hinst Hneg Hpending Hhead Hclock passed. subst passed.
  destruct (UpdateFdSet_run w inst now aMainloop Hinst) as (Hev & _).
  set (t := timeval_us (mTimeout aMainloop)) in *.
  assert (wake_timeout t (otTaskletsArePending inst (lib w))
            (mTimers (self w)) now = t) as Hw.
  { unfold wake_timeout. rewrite Hpending.
    destruct (mTimers (self w)) as [| first q]; [reflexivity |].
    specialize (Hhead first q eq_refl).
    destruct (Z.ltb_spec (due first) now) as [Hlt | Hge]; [lia |].
    rewrite (gap_in_range now first q Hclock Hge).
    destruct (duration_cast_us_sign (due first - now)) as [Hpos _]. lia. }
  rewrite Hev. cbv zeta. rewrite Hw. split; [reflexivity |].
  unfold ToTimeVal, kUsPerSecond. cbn [tv_sec tv_usec].
  assert (0 <= Z.quot (- t) 1000000) as Hq by (apply Z.quot_pos; lia).
  rewrite Z.quot_opp_l in Hq by lia.
  pose proof (Z.rem_bound_pos_neg t 1000000) as Hr.
  pose proof (Z.quot_rem' t 1000000) as Hqr.
  repeat split; try lia.
Qed.

(** *** [PostTimerTask] *)

Lemma multimap_insert_between e front back :
  Forall (fun x => due x <= due e) front ->
  Forall (fun x => due e < due x) back ->
  multimap_insert e (front ++ back) = front ++ e :: back.
Proof.
  intros Hf Hb. rewrite multimap_insert_behind by exact Hf. f_equal.
  destruct back as [| h back]; [reflexivity |].
  inversion Hb; subst. cbn.
  destruct (Z.ltb_spec (due e) (due h)); [reflexivity | lia].
Qed.

Lemma filter_none {A} (f : A -> bool) l :
  Forall (fun x => f x = false) l -> filter f l = [].
Proof.
  induction 1 as [| x l Hx _ IH]; cbn; [reflexivity |]. now rewrite Hx.
Qed.

(** X9.  [PostTimerTask] on a sorted queue puts the entry behind every
    entry that is due at or before it and in front of every entry that is
    due later; nothing else moves.  So the queue stays sorted, and among
    the entries of one due time the order is the order of posting. *)
Theorem PostTimerTask_position
  (w : World Lib) (aTimePoint : time_point) (aTask : Task) :
  timers_sorted (mTimers (self w)) ->
  let q := mTimers (self w) in
  let r := PostTimerTask aTimePoint aTask w in
  result r = Done tt /\ events r = [] /\
  mTimers (self (final r)) =
    due_entries aTimePoint q ++ (aTimePoint, aTask) :: later_entries aTimePoint q /\
  timers_sorted (mTimers (self (final r))) /\
  (forall d,
     filter (fun e => due e =? d) (mTimers (self (final r))) =
     filter (fun e => due e =? d) q ++
     (if aTimePoint =? d then [(aTimePoint, aTask)] else [])).
Proof.
  intros Hs q r. subst q r. unfold PostTimerTask. mrun.
  set (q := mTimers (self w)) in *.
  set (e := (aTimePoint, aTask)).
  assert (Forall (fun x => due x <= due e) (due_entries aTimePoint q)) as Hf.
  { apply Forall_forall. intros x Hx. apply filter_In in Hx.
    destruct Hx as [_ Hx]. cbn. lia. }
  assert (Forall (fun x => due e < due x) (later_entries aTimePoint q)) as Hb.
  { apply Forall_forall. intros x Hx. apply filter_In in Hx.
    destruct Hx as [_ Hx]. cbn. lia. }
  pose proof (sorted_split_at aTimePoint q Hs) as Hsplit.
  assert (multimap_insert e q =
          due_entries aTimePoint q ++ e :: later_entries aTimePoint q) as Hins.
  { transitivity (multimap_insert e
                    (due_entries aTimePoint q ++ later_entries aTimePoint q)).
    - f_equal. exact Hsplit.
    - apply multimap_insert_between; assumption. }
  split; [reflexivity |]. split; [reflexivity |]. split; [exact Hins |].
  split; [apply multimap_insert_sorted; exact Hs |].
  intro d. rewrite Hins. rewrite Hsplit at 3.
  rewrite !filter_app. cbn [filter due fst e].
  destruct (Z.eqb_spec aTimePoint d) as [-> | Hne].
  - rewrite (filter_none _ (later_entries d q)).
    + rewrite !app_nil_r. reflexivity.
    + eapply Forall_impl; [| exact Hb]. cbn beta. intros x Hx.
      apply Z.eqb_neq. unfold e, due in *. cbn [fst] in Hx. lia.
  - rewrite app_nil_r. reflexivity.
Qed.

(** *** What the operations leave alone *)

Lemma Init_keeps (w : World Lib) :
  mTimers (self (final (Init w))) = mTimers (self w) /\
  sReset (final (Init w)) = sReset w.
Proof.
  unfold Init. mrun.
  destruct (otError_eqb _ OT_ERROR_NONE); mrun; split; reflexivity.
Qed.

Lemma HandleStateChanged_keeps aFlags (w : World Lib) :
  self (final (HandleStateChanged aFlags w)) = self w /\
  sReset (final (HandleStateChanged aFlags w)) = sReset w.
Proof.
  unfold HandleStateChanged.
  destruct (flag_set aFlags OT_CHANGED_THREAD_NETWORK_NAME);
    destruct (flag_set aFlags OT_CHANGED_THREAD_EXT_PANID);
    destruct (flag_set aFlags OT_CHANGED_THREAD_ROLE);
    destruct (mInstance (self w)) as [inst |] eqn:Ei;
    destruct (mThreadHelper (self w)) as [helper |] eqn:Eh; mrun_ptr;
    split; reflexivity.
Qed.

Lemma UpdateFdSet_keeps now aMainloop (w : World Lib) :
  self (final (UpdateFdSet now aMainloop w)) = self w /\
  sReset (final (UpdateFdSet now aMainloop w)) = sReset w.
Proof.
  unfold UpdateFdSet. mrun.
  destruct (mInstance (self w)) as [inst |]; mrun; split; reflexivity.
Qed.

Lemma RequestEvent_keeps aEvent (w : World Lib) :
  final (RequestEvent aEvent w) = w.
Proof.
  unfold RequestEvent.
  destruct (aEvent =? kEventExtPanId);
    [| destruct (aEvent =? kEventThreadState);
       [| destruct (aEvent =? kEventNetworkName);
          [| destruct (aEvent =? kEventPSKc);
             [| destruct (aEvent =? kEventThreadVersion)]]]];
    mrun;
    try (destruct (mInstance (self w)) as [inst |]; mrun);
    reflexivity.
Qed.

Lemma Process_keeps_sReset fuel now aMainloop (w : World Lib) :
  sReset (final (Process fuel now aMainloop w)) = sReset w.
Proof.
  unfold Process. mrun.
  destruct (mInstance (self w)) as [inst |]; mrun; [| reflexivity].
  match goal with |- context [fire_timers fuel now ?w1] =>
    destruct (fire_timers_frame fuel now w1) as (q' & l' & Hf & _);
    destruct (fire_timers fuel now w1) as [res fin evs] end.
  cbn [result final events] in *. subst fin.
  destruct res as [[] | | |]; mrun; try reflexivity.
  destruct (mTriedAttach (self w)); mrun; [reflexivity |].
  destruct (mThreadHelper (self w)) as [helper |]; mrun; [| reflexivity].
  destruct (otError_eqb _ OT_ERROR_NONE); mrun; reflexivity.
Qed.

Lemma Reset_keeps_timers (w : World Lib) :
  mTimers (self (final (Reset w))) = mTimers (self w).
Proof.
  unfold Reset, Init. mrun.
  destruct (mInstance (self w)) as [inst |]; mrun; [| reflexivity].
  destruct (otError_eqb _ OT_ERROR_NONE); mrun; reflexivity.
Qed.

Lemma In_multimap_insert e p q : In e q -> In e (multimap_insert p q).
Proof.
  intro Hin.
  apply (Permutation_in _ (Permutation_sym (multimap_insert_perm p q))).
  right. exact Hin.
Qed.

(** X10.  There is no way to cancel a timer: no operation but [Process]
    takes an entry out of the queue, and no operation but [Process] and
    [PostTimerTask] changes the queue at all. *)
Theorem timers_removed_only_by_Process (o : Op) (w : World Lib) :
  (forall fuel now aMainloop, o <> OpProcess fuel now aMainloop) ->
  (forall e, In e (mTimers (self w)) ->
             In e (mTimers (self (final (run_op o w))))) /\
  ((forall aTimePoint aTask, o <> OpPostTimerTask aTimePoint aTask) ->
   mTimers (self (final (run_op o w))) = mTimers (self w)).
Proof.
  intro Hnp.
  assert (mTimers (self (final (run_op o w))) = mTimers (self w) ->
          (forall e, In e (mTimers (self w)) ->
                     In e (mTimers (self (final (run_op o w))))) /\
          ((forall aTimePoint aTask, o <> OpPostTimerTask aTimePoint aTask) ->
           mTimers (self (final (run_op o w))) = mTimers (self w))) as Hsame.
  { intro E. rewrite E. auto. }
  destruct o as [| aFlags | now ml | fuel now ml | | aEvent | t task | inst];
    cbn [run_op] in *.
  - apply Hsame. rewrite (proj1 (bind_ret_tt_run Init w)). apply Init_keeps.
  - apply Hsame. now rewrite (proj1 (HandleStateChanged_keeps aFlags w)).
  - apply Hsame. rewrite (proj1 (bind_ret_tt_run (UpdateFdSet now ml) w)).
    now rewrite (proj1 (UpdateFdSet_keeps now ml w)).
  - exfalso. exact (Hnp fuel now ml eq_refl).
  - apply Hsame. apply Reset_keeps_timers.
  - apply Hsame. rewrite (proj1 (bind_ret_tt_run (RequestEvent aEvent) w)).
    now rewrite RequestEvent_keeps.
  - split.
    + intros e He. unfold PostTimerTask. mrun. apply In_multimap_insert. exact He.
    + intro Hn. exfalso. exact (Hn t task eq_refl).
  - apply Hsame. reflexivity.
Qed.

(** X11.  The reset flag changes in two places only: every operation but
    [otPlatReset] and [Reset] leaves it as it was. *)
Theorem reset_flag_kept_by_other_operations (o : Op) (w : World Lib) :
  o <> OpReset ->
  (forall aInstance, o <> OpPlatReset aInstance) ->
  sReset (final (run_op o w)) = sReset w.
Proof.
  intros Hnr Hnp.
  destruct o as [| aFlags | now ml | fuel now ml | | aEvent | t task | inst];
    cbn [run_op].
  - rewrite (proj1 (bind_ret_tt_run Init w)). apply Init_keeps.
  - apply HandleStateChanged_keeps.
  - rewrite (proj1 (bind_ret_tt_run (UpdateFdSet now ml) w)).
    apply UpdateFdSet_keeps.
  - apply Process_keeps_sReset.
  - exfalso. exact (Hnr eq_refl).
  - rewrite (proj1 (bind_ret_tt_run (RequestEvent aEvent) w)).
    now rewrite RequestEvent_keeps.
  - reflexivity.
  - exfalso. exact (Hnp inst eq_refl).
Qed.

(** X12.  The relay, the publication on request and the computation of
    the wake time only read the controller: [HandleStateChanged],
    [RequestEvent] and [UpdateFdSet] leave every field of it and the reset
    flag unchanged, however they end. *)
Theorem publishing_and_wake_time_only_read (w : World Lib) :
  (forall aFlags,
      self (final (HandleStateChanged aFlags w)) = self w /\
      sReset (final (HandleStateChanged aFlags w)) = sReset w) /\
  (forall aEvent, final (RequestEvent aEvent w) = w) /\
  (forall now aMainloop,
      self (final (UpdateFdSet now aMainloop w)) = self w /\
      sReset (final (UpdateFdSet now aMainloop w)) = sReset w).
Proof.
  split; [| split].
  - intro aFlags. apply HandleStateChanged_keeps.
  - intro aEvent. apply RequestEvent_keeps.
  - intros now aMainloop. apply UpdateFdSet_keeps.
Qed.

(** *** [Process] *)

Lemma fire_timers_fired_when_due now :
  forall fuel (w : World Lib),
    Forall (fired_when_due now) (events (fire_timers fuel now w)).
Proof.
  induction fuel as [| fuel IH]; intro w; rewrite fire_timers_unfold;
    destruct (mTimers (self w)) as [| first q] eqn:Eq; try constructor;
    (destruct (Z.leb_spec (due first) now) as [Hle | Hgt]; [| constructor]).
  - constructor.
  - rewrite (bind_done _ _ _ _ _ _ (run_task_spec first w)).
    cbn [events app]. constructor; [exact Hle |].
    match goal with |- context [bind erase_begin ?k ?w1] =>
      set (w1' := w1); set (k' := k) end.
    destruct (mTimers (self w1')) as [| e1 q1] eqn:E1.
    + rewrite (erase_begin_empty w1' k' E1). constructor.
    + unfold k'. rewrite (bind_done _ _ _ _ _ _ (erase_begin_spec w1' e1 q1 E1)).
      cbn [events app]. constructor; [exact I |]. apply IH.
Qed.

Lemma Process_events_fired_when_due fuel now aMainloop (w : World Lib) :
  Forall (fired_when_due now) (events (Process fuel now aMainloop w)).
Proof.
  unfold Process. mrun.
  destruct (mInstance (self w)) as [inst |]; mrun; [| constructor].
  match goal with |- context [fire_timers fuel now ?w1] =>
    pose proof (fire_timers_fired_when_due now fuel w1) as Hev;
    destruct (fire_timers fuel now w1) as [res fin evs] end.
  cbn [result final events] in *.
  assert (Forall (fired_when_due now)
            (Ev_otTaskletsProcess inst
             :: Ev_otSysMainloopProcess inst aMainloop :: evs)) as Hpre.
  { constructor; [exact I |]. constructor; [exact I | exact Hev]. }
  destruct res as [[] | | |]; mrun; try exact Hpre.
  destruct (mTriedAttach (self fin)); mrun.
  { rewrite app_nil_r. exact Hpre. }
  destruct (mThreadHelper (self fin)) as [helper |]; mrun.
  2:{ rewrite app_nil_r. exact Hpre. }
  destruct (otError_eqb _ OT_ERROR_NONE); mrun;
    constructor; [exact I | | exact I |];
    (constructor; [exact I |]);
    (apply Forall_app; split; [exact Hev | constructor; [exact I | constructor]]).
Qed.

(** X13.  [Process] never fires a timer early: whatever the queue holds,
    whatever the tasks post and however the loop ends, every entry it
    fires is due at or before the time read at the start. *)
Theorem Process_never_fires_early
  (fuel : nat) (now : time_point) (aMainloop : otSysMainloopContext)
  (w : World Lib) (e : TimerEntry) :
  In (Ev_TimerFired e) (events (Process fuel now aMainloop w)) ->
  due e <= now.
Proof.
  intro Hin.
  pose proof (Process_events_fired_when_due fuel now aMainloop w) as Hall.
  rewrite Forall_forall in Hall. exact (Hall _ Hin).
Qed.




(** *** Tasks that keep the loop going *)

Lemma due_entries_of_perm now c q q' :
  Permutation q q' -> due_entries_of now c q = due_entries_of now c q'.
Proof.
  unfold due_entries_of.
  induction 1 as [| x l l' _ IH | x y l | l l' l'' _ IH1 _ IH2];
    cbn [filter]; try reflexivity.
  - destruct (due_entry_of now c x); cbn [List.length]; congruence.
  - destruct (due_entry_of now c x), (due_entry_of now c y); reflexivity.
  - congruence.
Qed.

Lemma due_entries_of_app now c q q' :
  due_entries_of now c (q ++ q') =
  (due_entries_of now c q + due_entries_of now c q')%nat.
Proof.
  unfold due_entries_of. rewrite filter_app. apply length_app.
Qed.

Lemma due_entries_of_In now c q e :
  In e q -> due_entry_of now c e = true -> (1 <= due_entries_of now c q)%nat.
Proof.
  intros Hin He. unfold due_entries_of.
  assert (In e (filter (due_entry_of now c) q)) as H
    by (apply filter_In; auto).
  destruct (filter (due_entry_of now c) q); [contradiction | cbn; lia].
Qed.

Lemma due_entries_of_some now c q :
  (1 <= due_entries_of now c q)%nat ->
  exists e, In e q /\ snd e = c /\ due e <= now.
Proof.
  unfold due_entries_of. intro H.
  destruct (filter (due_entry_of now c) q) as [| e f] eqn:E; [cbn in H; lia |].
  assert (In e (filter (due_entry_of now c) q)) as Hin
    by (rewrite E; left; reflexivity).
  apply filter_In in Hin. destruct Hin as [Hin He].
  unfold due_entry_of in He. apply andb_prop in He. destruct He as [Hc Hd].
  exists e. split; [exact Hin |]. split; [apply Nat.eqb_eq; exact Hc | lia].
Qed.

(** The loop never ends on a sorted queue that holds a due entry of a
    task that re-arms itself: after every turn such an entry is queued
    again. *)
Lemma fire_timers_starved now c :
  reposts_itself now c ->
  forall fuel (w : World Lib),
    timers_sorted (mTimers (self w)) ->
    (1 <= due_entries_of now c (mTimers (self w)))%nat ->
    result (fire_timers fuel now w) = OutOfFuel.
Proof.
  intro Hre. induction fuel as [| fuel IH]; intros w Hs Hc;
    destruct (due_entries_of_some now c _ Hc) as (x & Hx & Hxc & Hxd);
    (destruct (mTimers (self w)) as [| first q] eqn:Eq; [contradiction |]);
    pose proof (sorted_head_least first q x Hs Hx) as Hleast.
  - rewrite fire_timers_unfold, Eq.
    destruct (Z.leb_spec (due first) now); [reflexivity | lia].
  - set (ps := fst (invoke (snd first) (lib w))).
    destruct (post_all_cons_nonempty ps first q) as (e1 & q1 & Hpost & Hhd).
    rewrite (fire_timers_turn fuel now w first q e1 q1 Eq ltac:(lia) Hpost).
    cbv zeta. cbn [result]. apply IH;
      cbn [with_timers_lib self mTimers set_mTimers].
    + pose proof (post_all_sorted ps (first :: q) Hs) as Hp.
      rewrite Hpost in Hp. unfold timers_sorted in *. now inversion Hp.
    + pose proof (due_entries_of_perm now c _ _ (post_all_perm ps (first :: q)))
        as Hcount.
      rewrite Hpost, due_entries_of_app in Hcount.
      unfold due_entries_of at 1 in Hcount. cbn [filter] in Hcount.
      destruct (due_entry_of now c e1) eqn:He1; cbn [List.length] in Hcount;
        change (List.length (filter (due_entry_of now c) q1))
          with (due_entries_of now c q1) in Hcount;
        [| lia].
      assert (1 <= due_entries_of now c ps)%nat as Hps; [| lia].
      destruct Hhd as [-> | Hin].
      * unfold due_entry_of in He1. apply andb_prop in He1.
        destruct He1 as [Hc1 _]. apply Nat.eqb_eq in Hc1.
        destruct (Hre (lib w)) as (t & Ht & Hin).
        unfold ps. rewrite Hc1.
        apply (due_entries_of_In now c _ (t, c) Hin).
        unfold due_entry_of. cbn [snd due fst].
        rewrite Nat.eqb_refl. destruct (Z.leb_spec t now); [reflexivity | lia].
      * exact (due_entries_of_In now c ps e1 Hin He1).
Qed.

(** X1.  A task that re-arms itself for a time that has already come
    keeps the timer loop from ending: when the queue holds a due entry of
    a task that, whenever it runs, posts itself for a time at or before
    [now], [Process] uses up every budget, and it never gets to the
    resume action. *)
Theorem Process_reposting_task_never_done
  (w : World Lib) (inst : otInstance) (now : time_point)
  (aMainloop : otSysMainloopContext) (t : time_point) (c : Task) :
  mInstance (self w) = Some inst ->
  timers_sorted (mTimers (self w)) ->
  In (t, c) (mTimers (self w)) ->
  t <= now ->
  reposts_itself now c ->
  forall fuel,
    result (Process fuel now aMainloop w) = OutOfFuel /\
    (forall h r, ~ In (Ev_TryResumeNetwork h r) (events (Process fuel now aMainloop w))).
Proof.
  intros Hinst Hs Hin Ht Hre fuel.
  assert (1 <= due_entries_of now c (mTimers (self w)))%nat as Hc.
  { apply (due_entries_of_In now c _ (t, c) Hin).
    unfold due_entry_of. cbn [snd due fst].
    rewrite Nat.eqb_refl. destruct (Z.leb_spec t now); [reflexivity | lia]. }
  unfold Process. mrun_ptr.
  match goal with |- context [fire_timers fuel now ?w1] =>
    pose proof (fire_timers_starved now c Hre fuel w1 Hs Hc) as Hres;
    destruct (fire_timers_frame fuel now w1) as (q' & l' & _ & Hev & _);
    destruct (fire_timers fuel now w1) as [res fin evs] end.
  cbn [result events] in Hres, Hev. subst res. mrun.
  split; [reflexivity |].
  intros h r Hr. cbn in Hr.
  destruct Hr as [Hr | [Hr | Hr]]; try discriminate Hr.
  rewrite Forall_forall in Hev. specialize (Hev _ Hr). discriminate Hev.
Qed.

(** X23.  When the task of the first entry posts a timer that is due
    before that entry, [erase(begin())] erases a timer the task has just
    posted, which never ran, and not the entry whose task ran: that entry
    is still queued when the loop goes on. *)
Theorem erase_takes_posted_timer
  (w : World Lib) (now : time_point) (fuel : nat)
  (first : TimerEntry) (q : list TimerEntry) (p : TimerEntry) :
  mTimers (self w) = first :: q ->
  timers_sorted (mTimers (self w)) ->
  due first <= now ->
  In p (fst (invoke (snd first) (lib w))) ->
  due p < due first ->
  exists erased w',
    In erased (fst (invoke (snd first) (lib w))) /\
    due erased < due first /\
    In first (mTimers (self w')) /\
    result (fire_timers (S fuel) now w) = result (fire_timers fuel now w') /\
    events (fire_timers (S fuel) now w) =
      Ev_TimerFired first :: Ev_TimerErased erased ::
      events (fire_timers fuel now w').
Proof.
  intros Eq Hs Hdue Hp Hlt.
  set (ps := fst (invoke (snd first) (lib w))) in *.
  destruct (post_all_cons_nonempty ps first q) as (e1 & q1 & Hpost & Hhd).
  pose proof (post_all_sorted ps (first :: q)) as Hsorted.
  rewrite Eq in Hs. specialize (Hsorted Hs). rewrite Hpost in Hsorted.
  assert (In p (e1 :: q1)) as Hpin.
  { rewrite <- Hpost.
    apply (Permutation_in _ (Permutation_sym (post_all_perm ps (first :: q)))).
    apply in_or_app. left. exact Hp. }
  pose proof (sorted_head_least e1 q1 p Hsorted Hpin) as Hleast.
  assert (In first (e1 :: q1)) as Hfin.
  { rewrite <- Hpost. apply In_post_all. left. reflexivity. }
  exists e1, (with_timers_lib q1 (snd (invoke (snd first) (lib w))) w).
  rewrite (fire_timers_turn fuel now w first q e1 q1 Eq Hdue Hpost).
  cbv zeta. cbn [result events].
  destruct Hhd as [-> | Hin]; [lia |].
  split; [exact Hin |]. split; [lia |].
  split; [| split; reflexivity].
  cbn [with_timers_lib self mTimers set_mTimers].
  destruct Hfin as [<- | Hfin]; [lia | exact Hfin].
Qed.

(** *** [RequestEvent] and the relay *)

Lemma RequestEvent_events (w : World Lib) inst :
  mInstance (self w) = Some inst ->
  events (RequestEvent kEventExtPanId w) =
    [Ev_Emit kEventExtPanId (EmitBytes (otThreadGetExtendedPanId inst (lib w)))] /\
  events (RequestEvent kEventNetworkName w) =
    [Ev_Emit kEventNetworkName (EmitString (otThreadGetNetworkName inst (lib w)))] /\
  events (RequestEvent kEventThreadState w) =
    [Ev_Emit kEventThreadState
       (EmitBool
          match otThreadGetDeviceRole inst (lib w) with
          | OT_DEVICE_ROLE_CHILD
          | OT_DEVICE_ROLE_ROUTER
          | OT_DEVICE_ROLE_LEADER => true
          | _ => false
          end)] /\
  events (RequestEvent kEventPSKc w) =
    [Ev_Emit kEventPSKc (EmitBytes (otThreadGetPskc inst (lib w)))] /\
  events (RequestEvent kEventThreadVersion w) =
    [Ev_Emit kEventThreadVersion (EmitU16 (otThreadGetVersion (lib w)))].
Proof.
  intro Hinst.
  destruct event_codes_neq as (N1 & N2 & N3 & N4 & N5 & N6 & N7 & N8 & N9 & N10).
  unfold RequestEvent.
  repeat match goal with
  | |- context [?a =? ?b] =>
      destruct (Z.eqb_spec a b); try congruence
  end; mrun_ptr; repeat split; reflexivity.
Qed.

(** X16.  For each of the five codes [RequestEvent] on a controller with
    an instance publishes one event, of that code, with the value the
    stack reports at that moment: extended PAN ID, network name, PSKc and
    protocol version as they are. *)
Theorem RequestEvent_publishes_current_value (w : World Lib) (inst : otInstance) :
  mInstance (self w) = Some inst ->
  events (RequestEvent kEventExtPanId w) =
    [Ev_Emit kEventExtPanId (EmitBytes (otThreadGetExtendedPanId inst (lib w)))] /\
  events (RequestEvent kEventNetworkName w) =
    [Ev_Emit kEventNetworkName (EmitString (otThreadGetNetworkName inst (lib w)))] /\
  events (RequestEvent kEventPSKc w) =
    [Ev_Emit kEventPSKc (EmitBytes (otThreadGetPskc inst (lib w)))] /\
  events (RequestEvent kEventThreadVersion w) =
    [Ev_Emit kEventThreadVersion (EmitU16 (otThreadGetVersion (lib w)))] /\
  (exists attached,
     events (RequestEvent kEventThreadState w) =
       [Ev_Emit kEventThreadState (EmitBool attached)]).
Proof.
  intro Hinst.
  destruct (RequestEvent_events w inst Hinst) as (H1 & H2 & H3 & H4 & H5).
  repeat split; try assumption. eexists. exact H3.
Qed.

(** X17.  The relay and the publication on request agree: what
    [HandleStateChanged] publishes for a field whose bit is set is what
    [RequestEvent] publishes for that field's code in the same state. *)
Theorem HandleStateChanged_agrees_with_RequestEvent
  (w : World Lib) (inst : otInstance) (helper : ThreadHelper)
  (aFlags : otChangedFlags) :
  initialized w inst helper ->
  events (HandleStateChanged aFlags w) =
    (if flag_set aFlags OT_CHANGED_THREAD_NETWORK_NAME
     then events (RequestEvent kEventNetworkName w) else []) ++
    (if flag_set aFlags OT_CHANGED_THREAD_EXT_PANID
     then events (RequestEvent kEventExtPanId w) else []) ++
    (if flag_set aFlags OT_CHANGED_THREAD_ROLE
     then events (RequestEvent kEventThreadState w) else []) ++
    [Ev_StateChangedCallback helper aFlags].
Proof.
  intros [Hinst Hhelper].
  destruct (RequestEvent_events w inst Hinst) as (H1 & H2 & H3 & _).
  rewrite H1, H2, H3.
  rewrite (HandleStateChanged_events w inst aFlags Hinst), Hhelper.
  reflexivity.
Qed.

(** *** The life cycle *)

Lemma Init_run (w : World Lib) :
  exists inst r,
    events (Init w) =
      [Ev_otSysInit (mConfig (self w)) inst; Ev_otCliUartInit inst;
       Ev_otSetStateChangedCallback inst r;
       Ev_LogOpenThreadResult "Set state callback" r] ++
      (if otError_eqb r OT_ERROR_NONE then [Ev_ThreadHelper_new inst] else []) /\
    result (Init w) =
      Done (if otError_eqb r OT_ERROR_NONE
            then OTBR_ERROR_NONE else OTBR_ERROR_OPENTHREAD) /\
    mInstance (self (final (Init w))) = Some inst /\
    mThreadHelper (self (final (Init w))) =
      (if otError_eqb r OT_ERROR_NONE
       then Some {| helper_instance := inst |} else mThreadHelper (self w)) /\
    mConfig (self (final (Init w))) = mConfig (self w) /\
    mTimers (self (final (Init w))) = mTimers (self w) /\
    mTriedAttach (self (final (Init w))) = mTriedAttach (self w) /\
    sReset (final (Init w)) = sReset w.
Proof.
  unfold Init. mrun.
  set (inst := fst (otSysInit (mConfig (self w)) (lib w))).
  set (r := fst (otSetStateChangedCallback inst _)).
  exists inst, r.
  destruct (otError_eqb r OT_ERROR_NONE); mrun; repeat split; reflexivity.
Qed.

(** X18.  [Init] creates the instance from the stored configuration,
    attaches the command line to it, registers the callback and logs the
    outcome, in this order; it creates the helper, bound to the new
    instance, only when the registration succeeded, and otherwise leaves
    the helper pointer as it was.  On a new controller the configuration
    it passes is the constructor's. *)
Theorem Init_call_sequence (w : World Lib) :
  (exists inst r,
     events (Init w) =
       [Ev_otSysInit (mConfig (self w)) inst; Ev_otCliUartInit inst;
        Ev_otSetStateChangedCallback inst r;
        Ev_LogOpenThreadResult "Set state callback" r] ++
       (if otError_eqb r OT_ERROR_NONE then [Ev_ThreadHelper_new inst] else []) /\
     mInstance (self (final (Init w))) = Some inst /\
     mThreadHelper (self (final (Init w))) =
       (if otError_eqb r OT_ERROR_NONE
        then Some {| helper_instance := inst |} else mThreadHelper (self w))) /\
  (forall aInterfaceName aRadioFile aRadioConfig,
     self w = Controller_Create aInterfaceName aRadioFile aRadioConfig ->
     exists inst,
       sys_inits (events (Init w)) =
         [({| mInterfaceName := aInterfaceName;
              mRadioFile := aRadioFile;
              mRadioConfig := aRadioConfig;
              mResetRadio := true;
              mSpeedUpFactor := 1 |}, inst)]).
Proof.
  destruct (Init_run w) as (inst & r & Hev & _ & Hi & Hh & _).
  split.
  - exists inst, r. auto.
  - intros a b c Hself. exists inst. rewrite Hev, Hself.
    destruct (otError_eqb r OT_ERROR_NONE); reflexivity.
Qed.

Lemma delete_run (w : World Lib) inst :
  mInstance (self w) = Some inst ->
  ControllerOpenThread_delete w =
  Build_Run (Done tt)
    (Build_World (self w) (sReset w)
       (otSysDeinit (otInstanceFinalize inst (lib w))))
    [Ev_otInstanceFinalize inst; Ev_otSysDeinit].
Proof.
  intro Hinst. unfold ControllerOpenThread_delete. mrun_ptr. reflexivity.
Qed.

(** X19.  [Reset] on a controller with an instance is the destructor's
    teardown (finalise the instance, then release the platform) followed
    by [Init] and the clearing of the flag: it makes the calls of the one
    and then of the other, and whatever [Init] returns, it completes. *)
Theorem Reset_is_teardown_then_Init (w : World Lib) (inst : otInstance) :
  mInstance (self w) = Some inst ->
  let torn := ControllerOpenThread_delete w in
  let init := Init (final torn) in
  events torn = [Ev_otInstanceFinalize inst; Ev_otSysDeinit] /\
  events (Reset w) = events torn ++ events init /\
  result (Reset w) = Done tt /\
  final (Reset w) = set_sReset false (final init).
Proof.
  intros Hinst torn init. subst torn init.
  rewrite (delete_run w inst Hinst). cbn [events final].
  split; [reflexivity |].
  unfold Reset, Init. mrun_ptr.
  destruct (otError_eqb _ OT_ERROR_NONE); mrun; repeat split; reflexivity.
Qed.

(** X20.  After [Reset] the controller holds the instance the stack
    created anew.  When the callback registration succeeded the helper is
    bound to that instance; when it failed, [Reset] still completes and
    clears the flag, and the controller keeps the helper it had, which
    was built for the finalised instance. *)
Theorem Reset_rebinds_helper (w : World Lib) (inst : otInstance) :
  mInstance (self w) = Some inst ->
  exists inst' r,
    registrations (events (Reset w)) = [(inst', r)] /\
    result (Reset w) = Done tt /\
    sReset (final (Reset w)) = false /\
    mInstance (self (final (Reset w))) = Some inst' /\
    mThreadHelper (self (final (Reset w))) =
      (if otError_eqb r OT_ERROR_NONE
       then Some {| helper_instance := inst' |} else mThreadHelper (self w)).
Proof.
  intro Hinst. unfold Reset, Init. mrun_ptr.
  match goal with |- context [otError_eqb (fst (otSetStateChangedCallback ?i ?l0))
                                OT_ERROR_NONE] =>
    set (r := fst (otSetStateChangedCallback i l0)); set (inst' := i) end.
  exists inst', r.
  destruct (otError_eqb r OT_ERROR_NONE); mrun; repeat split; reflexivity.
Qed.

(** X21.  When [Init] fails on a new controller there is no helper:
    [HandleStateChanged] and [Process] would then go through a null
    pointer, the one before it could forward the mask, the other before
    it could call the resume action. *)
Theorem failed_Init_leaves_no_helper
  (aInterfaceName aRadioFile aRadioConfig : string) (l : Lib) :
  let w := boot aInterfaceName aRadioFile aRadioConfig l in
  result (Init w) = Done OTBR_ERROR_OPENTHREAD ->
  mThreadHelper (self (final (Init w))) = None /\
  (forall aFlags,
     result (HandleStateChanged aFlags (final (Init w))) = Undefined /\
     forall h f, ~ In (Ev_StateChangedCallback h f)
                   (events (HandleStateChanged aFlags (final (Init w))))) /\
  (forall fuel now aMainloop,
     result (Process fuel now aMainloop (final (Init w))) = Undefined /\
     forall h r, ~ In (Ev_TryResumeNetwork h r)
                   (events (Process fuel now aMainloop (final (Init w))))).
Proof.
  intros w Hfail.
  destruct (Init_run w) as (inst & r & _ & Hres & Hi & Hh & _ & Hq & Ht & _).
  rewrite Hres in Hfail.
  destruct (otError_eqb r OT_ERROR_NONE); [discriminate Hfail |].
  set (w1 := final (Init w)) in *.
  assert (mThreadHelper (self w1) = None) as Hnone by exact Hh.
  assert (mTimers (self w1) = []) as Hempty by exact Hq.
  assert (mTriedAttach (self w1) = false) as Hflag by exact Ht.
  split; [exact Hnone |]. split.
  - intro aFlags.
    pose proof (HandleStateChanged_events w1 inst aFlags Hi) as Hev.
    rewrite Hnone in Hev. split.
    + unfold HandleStateChanged.
      destruct (flag_set aFlags OT_CHANGED_THREAD_NETWORK_NAME);
        destruct (flag_set aFlags OT_CHANGED_THREAD_EXT_PANID);
        destruct (flag_set aFlags OT_CHANGED_THREAD_ROLE);
        mrun_ptr; reflexivity.
    + intros h f Hin. rewrite Hev in Hin.
      destruct (flag_set aFlags OT_CHANGED_THREAD_NETWORK_NAME);
        destruct (flag_set aFlags OT_CHANGED_THREAD_EXT_PANID);
        destruct (flag_set aFlags OT_CHANGED_THREAD_ROLE);
        cbn in Hin; intuition discriminate.
  - intros fuel now aMainloop.
    assert (Process fuel now aMainloop w1 =
            Build_Run Undefined
              (Build_World (self w1) (sReset w1)
                 (otSysMainloopProcess inst aMainloop
                    (otTaskletsProcess inst (lib w1))))
              [Ev_otTaskletsProcess inst; Ev_otSysMainloopProcess inst aMainloop])
      as Hrun.
    { unfold Process. mrun_ptr.
      match goal with |- context [fire_timers fuel now ?w2] =>
        rewrite (fire_timers_unfold fuel now w2) end.
      cbn [self]. rewrite Hempty. mrun_ptr.
      rewrite Hflag. mrun_ptr. destruct w1 as [c1 s1 l1]. reflexivity. }
    rewrite Hrun. cbn [result events]. split; [reflexivity |].
    intros h r' Hin. cbn in Hin. intuition discriminate.
Qed.

End Coverage.

(* ------------------------------------------------------------------ *)
(** ** The further properties at the stand-in controller *)

Lemma otPlatLog_level_mapping_witness :
  log_level (@otPlatLog SimLogLevels 9 0 "%s" [1]) = OTBR_LOG_DEBUG <->
  9 = @OT_LOG_LEVEL_DEBG SimLogLevels \/ ~ In 9 (@known_log_levels SimLogLevels).
Proof.
  apply (@otPlatLog_level_mapping SimLogLevels 9 0 "%s" [1]).
Defined.

Lemma UpdateFdSet_never_oversleeps_witness :
  mInstance (self sim_world_timers) = Some 1 /\
  exists passed,
    events (@UpdateFdSet SimStack SimOpenThread SimSteadyClock 1000 sim_mainloop
              sim_world_timers) = [Ev_otSysMainloopUpdate 1 passed] /\
    timeval_us (mTimeout passed) * 1000 <= Z.max 0 (5000 - 1000).
Proof.
  split; [reflexivity |].
  destruct (@UpdateFdSet_never_oversleeps SimStack SimOpenThread SimSteadyClock
              sim_world_timers 1 1000 sim_mainloop eq_refl)
    as (passed & Hev & Hall).
  - repeat constructor; cbn; lia.
  - exists passed. split; [exact Hev |].
    apply (Hall (5000, 1%nat)). left. reflexivity.
Defined.

Lemma UpdateFdSet_zero_when_work_is_due_witness :
  (exists e, In e (mTimers (self sim_world_timers)) /\ due e <= 7000) /\
  events (@UpdateFdSet SimStack SimOpenThread SimSteadyClock 7000 sim_mainloop
            sim_world_timers) =
    [Ev_otSysMainloopUpdate 1
       (set_mTimeout {| tv_sec := 0; tv_usec := 0 |} sim_mainloop)].
Proof.
  assert (exists e, In e (mTimers (self sim_world_timers)) /\ due e <= 7000) as Hdue.
  { exists (5000, 1%nat). split; [left; reflexivity |].
    cbn. lia. }
  split; [exact Hdue |].
  apply (@UpdateFdSet_zero_when_work_is_due SimStack SimOpenThread SimSteadyClock
           sim_world_timers 1 7000 sim_mainloop eq_refl).
  - repeat constructor; cbn; lia.
  - cbn. lia.
  - right. exact Hdue.
Defined.

Lemma UpdateFdSet_passes_valid_timeval_witness :
  exists passed,
    events (@UpdateFdSet SimStack SimOpenThread SimSteadyClock 1000
              (set_mTimeout {| tv_sec := 0; tv_usec := 2500000 |} sim_mainloop)
              sim_world) = [Ev_otSysMainloopUpdate 1 passed] /\
    0 <= tv_usec (mTimeout passed) < 1000000.
Proof.
  destruct (@UpdateFdSet_passes_valid_timeval SimStack SimOpenThread SimSteadyClock
              sim_world 1 1000
              (set_mTimeout {| tv_sec := 0; tv_usec := 2500000 |} sim_mainloop)
              eq_refl)
    as (passed & Hev & _ & Husec & _).
  - vm_compute. discriminate.
  - split; [lia | constructor].
  - exists passed. split; [exact Hev | exact Husec].
Defined.

Lemma UpdateFdSet_negative_request_passes_through_witness :
  events (@UpdateFdSet SimStack SimOpenThread SimSteadyClock 1000
            sim_mainloop_overlong sim_world) =
    [Ev_otSysMainloopUpdate 1
       (set_mTimeout {| tv_sec := -9223372036854; tv_usec := -551616 |}
          sim_mainloop_overlong)].
Proof.
  apply (@UpdateFdSet_negative_request_passes_through SimStack SimOpenThread
           SimSteadyClock sim_world 1 1000 sim_mainloop_overlong eq_refl).
  - vm_compute. reflexivity.
  - reflexivity.
  - intros e q Eq. discriminate Eq.
  - split; [lia | constructor].
Defined.

Lemma PostTimerTask_position_witness :
  mTimers (self (final (@PostTimerTask SimStack 9000 4%nat sim_world_timers))) =
    due_entries 9000 (mTimers (self sim_world_timers)) ++
    (9000, 4%nat) :: later_entries 9000 (mTimers (self sim_world_timers)).
Proof.
  apply (@PostTimerTask_position SimStack sim_world_timers 9000 4%nat).
  repeat constructor; cbn; lia.
Defined.

Lemma timers_removed_only_by_Process_witness :
  In (9000, 2%nat)
     (mTimers (self (final
        (@run_op SimStack SimOpenThread SimTasks SimEventCodes SimChangedFlags SimSteadyClock
           OpReset sim_world_timers)))).
Proof.
  assert (forall fuel now aMainloop, OpReset <> OpProcess fuel now aMainloop)
    as Hnp by (intros fuel now aMainloop; discriminate).
  destruct (@timers_removed_only_by_Process SimStack SimOpenThread SimTasks SimEventCodes
              SimChangedFlags SimSteadyClock OpReset sim_world_timers Hnp)
    as [Hin _].
  apply Hin. right. left. reflexivity.
Defined.

Lemma reset_flag_kept_by_other_operations_witness :
  sReset (final
    (@run_op SimStack SimOpenThread SimTasks SimEventCodes SimChangedFlags SimSteadyClock
       (OpProcess 3 6000 sim_mainloop) sim_world_stale)) = true.
Proof.
  apply (@reset_flag_kept_by_other_operations SimStack SimOpenThread SimTasks SimEventCodes
           SimChangedFlags SimSteadyClock (OpProcess 3 6000 sim_mainloop)
           sim_world_stale).
  - discriminate.
  - intro aInstance. discriminate.
Defined.

Lemma Process_never_fires_early_witness :
  In (Ev_TimerFired (5000, 1%nat))
     (events (@Process SimStack SimOpenThread SimTasks 3 6000 sim_mainloop sim_world_timers)) /\
  due (5000, 1%nat) <= 6000.
Proof.
  assert (In (Ev_TimerFired (5000, 1%nat))
            (events (@Process SimStack SimOpenThread SimTasks 3 6000 sim_mainloop
                       sim_world_timers))) as Hin
    by (right; right; left; reflexivity).
  split; [exact Hin |].
  exact (@Process_never_fires_early SimStack SimOpenThread SimTasks 3 6000 sim_mainloop
           sim_world_timers _ Hin).
Defined.



Lemma sim_task_9_reposts_itself : @reposts_itself SimStack SimTasks 10000 9%nat.
Proof.
  intro l. exists 5000. split; [lia | left; reflexivity].
Defined.

Lemma Process_reposting_task_never_done_witness :
  In (5000, 9%nat) (mTimers (self sim_world_reposting)) /\
  In (6000, 2%nat) (mTimers (self sim_world_reposting)) /\
  forall fuel,
    result (@Process SimStack SimOpenThread SimTasks fuel 10000 sim_mainloop
              sim_world_reposting) = OutOfFuel.
Proof.
  assert (In (5000, 9%nat) (mTimers (self sim_world_reposting))) as Hin
    by (left; reflexivity).
  split; [exact Hin |]. split; [right; left; reflexivity |].
  intro fuel.
  apply (@Process_reposting_task_never_done SimStack SimOpenThread SimTasks
           sim_world_reposting 1 10000 sim_mainloop 5000 9%nat eq_refl).
  - repeat constructor; cbn; lia.
  - exact Hin.
  - lia.
  - exact sim_task_9_reposts_itself.
Defined.

Lemma erase_takes_posted_timer_witness :
  exists erased w',
    erased = (3000, 2%nat) /\
    In (5000, 8%nat) (mTimers (self w')) /\
    events (@fire_timers SimStack SimTasks 1 10000 sim_world_posting_earlier) =
      Ev_TimerFired (5000, 8%nat) :: Ev_TimerErased erased ::
      events (@fire_timers SimStack SimTasks 0 10000 w').
Proof.
  destruct (@erase_takes_posted_timer SimStack SimTasks sim_world_posting_earlier
              10000 0%nat (5000, 8%nat) [] (3000, 2%nat) eq_refl)
    as (erased & w' & Hin & _ & Hfirst & _ & Hev).
  - repeat constructor.
  - cbn. lia.
  - left. reflexivity.
  - cbn. lia.
  - exists erased, w'. split; [| split; [exact Hfirst | exact Hev]].
    destruct Hin as [<- | []]. reflexivity.
Defined.

Lemma RequestEvent_publishes_current_value_witness :
  mInstance (self sim_world) = Some 1 /\
  events (@RequestEvent SimStack SimOpenThread SimEventCodes
            (@kEventNetworkName SimEventCodes) sim_world) =
    [Ev_Emit (@kEventNetworkName SimEventCodes) (EmitString "OpenThread")].
Proof.
  split; [reflexivity |].
  apply (@RequestEvent_publishes_current_value SimStack SimOpenThread SimEventCodes
           sim_world 1 eq_refl).
Defined.

Lemma HandleStateChanged_agrees_with_RequestEvent_witness :
  initialized sim_world 1 {| helper_instance := 1 |} /\
  events (@HandleStateChanged SimStack SimOpenThread SimEventCodes SimChangedFlags
            65536 sim_world) =
    events (@RequestEvent SimStack SimOpenThread SimEventCodes
              (@kEventNetworkName SimEventCodes) sim_world) ++
    [Ev_StateChangedCallback {| helper_instance := 1 |} 65536].
Proof.
  assert (initialized sim_world 1 {| helper_instance := 1 |}) as Hi
    by (split; reflexivity).
  split; [exact Hi |].
  exact (@HandleStateChanged_agrees_with_RequestEvent SimStack SimOpenThread
           SimEventCodes SimChangedFlags sim_world 1 {| helper_instance := 1 |}
           65536 Hi).
Defined.

Lemma Reset_is_teardown_then_Init_witness :
  mInstance (self sim_world) = Some 1 /\
  events (@Reset SimStack SimOpenThread sim_world) =
    events (@ControllerOpenThread_delete SimStack SimOpenThread sim_world) ++
    events (@Init SimStack SimOpenThread
              (final (@ControllerOpenThread_delete SimStack SimOpenThread sim_world))).
Proof.
  split; [reflexivity |].
  apply (@Reset_is_teardown_then_Init SimStack SimOpenThread sim_world 1 eq_refl).
Defined.

Lemma Reset_rebinds_helper_witness :
  mInstance (self sim_world_stale) = Some 1 /\
  exists inst' r,
    registrations (events (@Reset SimStack SimOpenThread sim_world_stale)) =
      [(inst', r)] /\
    sReset (final (@Reset SimStack SimOpenThread sim_world_stale)) = false.
Proof.
  split; [reflexivity |].
  destruct (@Reset_rebinds_helper SimStack SimOpenThread sim_world_stale 1 eq_refl)
    as (inst' & r & Hreg & _ & Hflag & _).
  exists inst', r. split; [exact Hreg | exact Hflag].
Defined.

Lemma failed_Init_leaves_no_helper_witness :
  result (@Init SimStack SimOpenThread (boot "wpan0" "/dev/ttyUSB0" "" sim_stack_failing)) =
    Done OTBR_ERROR_OPENTHREAD /\
  mThreadHelper
    (self (final (@Init SimStack SimOpenThread
                    (boot "wpan0" "/dev/ttyUSB0" "" sim_stack_failing)))) = None.
Proof.
  split; [reflexivity |].
  apply (@failed_Init_leaves_no_helper SimStack SimOpenThread SimTasks SimEventCodes
           SimChangedFlags "wpan0" "/dev/ttyUSB0" "" sim_stack_failing eq_refl).
Defined.
